(** * Release tasks of dash-bootstrap-components ([tasks.py])

    A shallow embedding of the release-automation script and the proofs of
    its specification.  Text is modelled by [string] (one [ascii] per code
    point, read as Latin-1), the file system by a finite map from paths to
    file contents, and the side effects of the script (file writes, console
    output, subordinate commands, the editor session, the working directory,
    process exit) by a state-and-exception monad over a [World].

    The [files] of a [World] hold each file as the text that Python's text
    mode hands to the script and takes from it; the bytes on disk are related
    to that text by [universal_newlines] and [with_linesep], and
    [op_on_disk] runs a metadata operation on the bytes.  Directories are
    not modelled: a path
    can always be written and [os.chdir] always succeeds.  The [ctx] argument
    of the tasks and the unused [**kwargs] of [run] are left out. *)

From Stdlib Require Import ZArith NArith Ascii.
From Stdlib Require String.
From Stdlib Require Import DecimalString DecimalN DecimalPos DecimalFacts.
From stdpp Require Import gmap strings list.

Local Open Scope stdpp_scope.

(** ** Python string operations used by the script *)

Module Py.

(** [s.startswith(p)] *)
Definition startswith (s p : string) : bool := String.prefix p s.

(** [sub in s]: substring test. *)
Fixpoint contains (sub s : string) : bool :=
  String.prefix sub s ||
  match s with
  | EmptyString => false
  | String _ s' => contains sub s'
  end.

(** Code points below 256 that [str.isspace] counts as whitespace. *)
Definition is_space_char (c : ascii) : bool :=
  let n := nat_of_ascii c in
  ((9 <=? n) && (n <=? 13)) || ((28 <=? n) && (n <=? 32)) ||
  (n =? 133) || (n =? 160).

(** [s.isspace()]: at least one character and all of them whitespace. *)
Definition isspace (s : string) : bool :=
  match s with
  | EmptyString => false
  | _ => forallb is_space_char (String.list_ascii_of_string s)
  end.

(** [c * n] for a one-character string. *)
Fixpoint repeat_char (c : ascii) (n : nat) : string :=
  match n with
  | O => EmptyString
  | S n' => String c (repeat_char c n')
  end.

(** ["".join(lines)], which is also what [f.writelines(lines)] writes. *)
Definition join (lines : list string) : string := String.concat "" lines.

(** [f.readlines()] on a text file whose content is [s]: the content cut
    after every newline, the newline kept with its line. *)
Fixpoint readlines (s : string) : list string :=
  match s with
  | EmptyString => []
  | String c s' =>
      if Ascii.eqb c "010" then String c EmptyString :: readlines s'
      else match readlines s' with
           | [] => [String c EmptyString]
           | l :: ls => String c l :: ls
           end
  end.

(** [[p(x) for x in xs].index(True)]: position of the first element that
    satisfies [p]; [None] stands for the [ValueError] of [list.index]. *)
Fixpoint index_true {A} (p : A -> bool) (xs : list A) : option nat :=
  match xs with
  | [] => None
  | x :: xs' => if p x then Some O else S <$> index_true p xs'
  end.

(** [xs[-1]]; [None] stands for [IndexError]. *)
Definition last_item {A} (xs : list A) : option A := last xs.

End Py.

(** ** The semantic-version library *)

Module semver.

(** Modelled from the spec: the third-party [semver] package, which is
    imported by [tasks.py] and is not part of the sources.  The spec gives a
    semantic version the form [major.minor.patch[-prerelease][+build]]; the
    three numbers are decimal without leading zeros, a pre-release is a
    dot-separated list of identifiers ([0], or a letter, hyphen or non-zero
    digit followed by letters, digits and hyphens) and a build tag is a
    dot-separated list of non-empty runs of letters, digits and hyphens. *)
Record VersionInfo := {
  major : N;
  minor : N;
  patch : N;
  prerelease : option string;
  build : option string
}.

Definition is_digit (c : ascii) : bool :=
  let n := nat_of_ascii c in (48 <=? n) && (n <=? 57).

Definition is_letter (c : ascii) : bool :=
  let n := nat_of_ascii c in
  ((65 <=? n) && (n <=? 90)) || ((97 <=? n) && (n <=? 122)).

Definition is_ident_char (c : ascii) : bool :=
  is_digit c || is_letter c || Ascii.eqb c "-".

(** [s.partition(sep)]: the text before the first [sep] and, when there is
    one, the text after it. *)
Fixpoint cut (sep : ascii) (s : string) : string * option string :=
  match s with
  | EmptyString => (EmptyString, None)
  | String c s' =>
      if Ascii.eqb c sep then (EmptyString, Some s')
      else let '(a, b) := cut sep s' in (String c a, b)
  end.

(** [s.split(sep)]: the pieces between the separators, never an empty list. *)
Fixpoint split_on (sep : ascii) (s : string) : list string :=
  match s with
  | EmptyString => [EmptyString]
  | String c s' =>
      if Ascii.eqb c sep then EmptyString :: split_on sep s'
      else match split_on sep s' with
           | [] => [String c EmptyString]
           | p :: ps => String c p :: ps
           end
  end.

Definition all_chars (p : ascii -> bool) (s : string) : bool :=
  forallb p (String.list_ascii_of_string s).

(** [0|[1-9][0-9]*], read as a number. *)
Definition numeric (s : string) : option N :=
  match s with
  | EmptyString => None
  | String c r =>
      if Ascii.eqb c "0" && negb (String.eqb r EmptyString) then None
      else N.of_uint <$> NilEmpty.uint_of_string s
  end.

(** [0|[1-9A-Za-z-][0-9A-Za-z-]*] *)
Definition pre_identifier (s : string) : bool :=
  match s with
  | EmptyString => false
  | String c r =>
      if Ascii.eqb c "0" then String.eqb r EmptyString
      else is_ident_char c && all_chars is_ident_char r
  end.

(** [[0-9A-Za-z-]+] *)
Definition build_identifier (s : string) : bool :=
  match s with
  | EmptyString => false
  | _ => all_chars is_ident_char s
  end.

Definition dotted (p : string -> bool) (o : option string) : bool :=
  match o with
  | None => true
  | Some s => forallb p (split_on "." s)
  end.

(** [semver.parse_version_info]; [None] stands for the [ValueError] raised on
    a string that is not a semantic version. *)
Definition parse_version_info (version : string) : option VersionInfo :=
  let '(rest, bld) := cut "+" version in
  let '(core, pre) := cut "-" rest in
  match split_on "." core with
  | [ma; mi; pa] =>
      match numeric ma, numeric mi, numeric pa with
      | Some a, Some b, Some c =>
          if dotted pre_identifier pre && dotted build_identifier bld
          then Some {| major := a; minor := b; patch := c;
                       prerelease := pre; build := bld |}
          else None
      | _, _, _ => None
      end
  | _ => None
  end.

(** ["%d" % n] *)
Definition decimal (n : N) : string := NilEmpty.string_of_uint (N.to_uint n).

Definition tagged (mark : ascii) (o : option string) : string :=
  match o with
  | None => EmptyString
  | Some s => String mark s
  end.

(** [semver.format_version] *)
Definition format_version (ma mi pa : N) (pre bld : option string) : string :=
  decimal ma +:+ "." +:+ decimal mi +:+ "." +:+ decimal pa
    +:+ tagged "-" pre +:+ tagged "+" bld.

(** [str(version_info)] *)
Definition str (v : VersionInfo) : string :=
  format_version (major v) (minor v) (patch v) (prerelease v) (build v).

(** [semver.bump_patch]: the next patch version, without pre-release or build
    tag. *)
Definition bump_patch (version : string) : option string :=
  v ← parse_version_info version;
  Some (format_version (major v) (minor v) (patch v + 1) None None).

End semver.

(** ** The world the script acts on *)

(** What [invoke.run] reports about a finished command. *)
Record Result := {
  exited : Z;
  stdout : string;
  stderr : string
}.

(** Exceptions that leave a function of the script.  [SystemExit] is what
    [exit] raises; like any exception it passes through [finally]. *)
Inductive exn :=
| ValueError
| IndexError
| FileNotFoundError
| UnexpectedExit (code : Z)
| SystemExit (code : option Z).

(** Exit status of the process when [e] reaches the top level: the code of
    [exit(code)], 0 for the bare [exit()], 1 for an uncaught exception. *)
Definition exit_status (e : exn) : Z :=
  match e with
  | SystemExit (Some code) => code
  | SystemExit None => 0
  | _ => 1
  end.

(** Observable actions, in the order they happen. *)
Inductive event :=
| Print (text : string)                       (* print(text) *)
| CPrint (text color : string)                (* cprint(text, color) *)
| Echo (out err : string)                     (* output of a command that is not hidden *)
| Write (path content : string)               (* a file opened with "w" and written *)
| Chdir (path : string)                       (* os.chdir(path) *)
| Invoke (command : string)                   (* a subordinate command *)
| Edit (editor initial : string).             (* the editor session *)

Record World := {
  files : gmap string string;   (* path to content *)
  cwd : string;
  trace : list event
}.

(** What the script cannot decide itself: where it is installed, what is on
    the search path, the environment, what commands answer and what the user
    leaves in the editor.  A command is seen through its [Result] only. *)
Record Environment := {
  HERE : string;                                  (* Path(__file__).parent, absolute *)
  which : string -> option string;                (* shutil.which *)
  EDITOR : option string;                         (* os.environ.get("EDITOR") *)
  shell : string -> World -> Result;              (* a command run in a world *)
  edited : string -> string -> option string      (* editor, initial text: saved text *)
}.

Inductive outcome (A : Type) :=
| Ret (a : A)
| Raise (e : exn).
Arguments Ret {A} a.
Arguments Raise {A} e.

Definition M (A : Type) : Type := World -> outcome A * World.

#[global] Instance M_ret : MRet M := fun A a w => (Ret a, w).

#[global] Instance M_bind : MBind M := fun A B f m w =>
  match m w with
  | (Ret a, w') => f a w'
  | (Raise e, w') => (Raise e, w')
  end.

Definition raise {A} (e : exn) : M A := fun w => (Raise e, w).

Definition emit (e : event) : M unit := fun w =>
  (Ret tt, {| files := files w; cwd := cwd w; trace := trace w ++ [e] |}).

(** [try: body finally: handler] *)
Definition try_finally {A} (body : M A) (handler : M unit) : M A := fun w =>
  let '(r, w1) := body w in
  match handler w1 with
  | (Ret _, w2) => (r, w2)
  | (Raise e, w2) => (Raise e, w2)
  end.

(** [for x in xs: body(x)] *)
Fixpoint for_each {A} (xs : list A) (body : A -> M unit) : M unit :=
  match xs with
  | [] => mret tt
  | x :: xs' => body x;; for_each xs' body
  end.

(** [for i, x in enumerate(xs): xs = body(i, x, xs)] on a list that the body
    updates in place: the element is read from the list as it is when the
    loop reaches position [i], and the loop ends when [i] runs off the list. *)
Fixpoint enumerate_from (fuel i : nat)
    (body : nat -> string -> list string -> list string)
    (xs : list string) : list string :=
  match fuel with
  | O => xs
  | S fuel' =>
      match xs !! i with
      | None => xs
      | Some x => enumerate_from fuel' (S i) body (body i x xs)
      end
  end.

Definition dquote : string := String "034" EmptyString.
Definition nl : string := String "010" EmptyString.

(** [open(path).readlines()], on the text of the file: the translation of
    line endings that text mode does when it reads the bytes is
    [universal_newlines] below. *)
Definition read_lines (path : string) : M (list string) := fun w =>
  match files w !! path with
  | Some content => (Ret (Py.readlines content), w)
  | None => (Raise FileNotFoundError, w)
  end.

(** [open(path, "w").write(content)], on the text of the file: what text
    mode stores on disk for it is [with_linesep] below. *)
Definition write_file (path content : string) : M unit := fun w =>
  (Ret tt, {| files := <[path := content]> (files w); cwd := cwd w;
              trace := trace w ++ [Write path content] |}).

(** [open(path, "w").writelines(lines)] *)
Definition write_lines (path : string) (lines : list string) : M unit :=
  write_file path (Py.join lines).

(** [os.chdir(path)] *)
Definition chdir (path : string) : M unit := fun w =>
  (Ret tt, {| files := files w; cwd := path; trace := trace w ++ [Chdir path] |}).

Definition getcwd : M string := fun w => (Ret (cwd w), w).

(** [exit(code)] and the bare [exit()] *)
Definition exit {A} (code : option Z) : M A := raise (SystemExit code).

(** [a / b] on paths *)
Definition slash (a b : string) : string := a +:+ "/" +:+ b.

(** A relative path is resolved against the working directory. *)
Definition relative (name : string) : M string :=
  d ← getcwd; mret (slash d name).

(** ** The script *)

Section Tasks.

Variable env : Environment.

Definition VERSION_TEMPLATE (version_string : string) : string :=
  "__version__ = " +:+ dquote +:+ version_string +:+ dquote +:+ nl.

Definition TEST_VERSION_TEMPLATE (version_string : string) : string :=
  "from dash_bootstrap_components import __version__" +:+ nl +:+ nl +:+ nl
  +:+ "def test_version():" +:+ nl
  +:+ "    assert __version__ == " +:+ dquote +:+ version_string +:+ dquote +:+ nl.

Definition RELEASE_NOTES_TEMPLATE (version_string underline : string) : string :=
  "# Write the release notes here" +:+ nl
  +:+ "# Delete the version title to cancel" +:+ nl
  +:+ "Version " +:+ version_string +:+ nl
  +:+ underline +:+ nl.

Definition DASH_BOOTSTRAP_DIR : string := slash (HERE env) "dash_bootstrap_components".
Definition JS_DIR : string := HERE env.

Definition error (text : string) : M unit := emit (CPrint text "red").

Definition info (text : string) : M unit := emit (Print text).

(** [invoke.run(command, hide=..., warn=...)]: the command is run in the
    current world; its output is echoed unless hidden, and a non-zero exit
    raises unless [warn] is set.  What a command does to the disk is not
    modelled: [files] keeps what the script itself read and wrote. *)
Definition invoke_run (command : string) (hide warn : bool) : M Result := fun w =>
  let result := shell env command w in
  let shown := if hide then [] else [Echo (stdout result) (stderr result)] in
  let w1 := {| files := files w; cwd := cwd w;
               trace := trace w ++ Invoke command :: shown |} in
  if negb warn && negb (exited result =? 0)%Z
  then (Raise (UnexpectedExit (exited result)), w1)
  else (Ret result, w1).

Definition run (command : string) : M unit :=
  result ← invoke_run command true true;
  if negb (exited result =? 0)%Z then
    error ("Error running " +:+ command);;
    emit (Print (stdout result));;
    emit (Print "");;
    emit (Print (stderr result));;
    exit (Some (exited result))
  else mret tt.

Definition normalize_version (version : string) : M string :=
  match semver.parse_version_info version with
  | Some version_info => mret (semver.str version_info)
  | None => raise ValueError
  end.

Definition check_prerequisites : M unit :=
  for_each ["twine"; "npm"; "dash-generate-components"] (fun executable =>
    match which env executable with
    | None =>
        error (executable +:+ " executable not found. "
               +:+ "You must have " +:+ executable +:+ " to release "
               +:+ "dash-bootstrap-components.");;
        exit (Some 127%Z)
    | Some _ => mret tt
    end).

(** The temporary file of the session is private to [open_editor] and is not
    kept among [files]; the session is seen through [edited]. *)
Definition open_editor (initial_message : string) : M (list string) :=
  let editor := default "vim" (EDITOR env) in
  emit (Edit editor initial_message);;
  match edited env editor initial_message with
  | Some content => mret (Py.readlines content)
  | None => raise FileNotFoundError
  end.

Definition get_release_notes (version : string) : M (option (list string)) :=
  version ← normalize_version version;
  let underline := Py.repeat_char "=" (String.length ("Version " +:+ version)) in
  let initial_message := RELEASE_NOTES_TEMPLATE version underline in
  lines ← open_editor initial_message;
  let non_commented_lines :=
    List.filter (fun line => negb (Py.startswith line "#")) lines in
  let changelog := Py.join non_commented_lines in
  if Py.contains version changelog then
    match Py.last_item non_commented_lines with
    | None => raise IndexError
    | Some final =>
        if negb (Py.isspace final)
        then mret (Some (non_commented_lines ++ [nl]))
        else mret (Some non_commented_lines)
    end
  else mret None.

Definition set_pyversion (version : string) : M unit :=
  version ← normalize_version version;
  let init_path := slash DASH_BOOTSTRAP_DIR "__init__.py" in
  lines ← read_lines init_path;
  index ← match Py.index_true (fun line => Py.startswith line "__version__ = ") lines with
          | Some i => mret i
          | None => raise ValueError
          end;
  let lines := <[index := VERSION_TEMPLATE version]> lines in
  write_lines init_path lines;;
  let test_version_path := slash (slash (HERE env) "tests") "test_version.py" in
  write_file test_version_path (TEST_VERSION_TEMPLATE version).

Definition js_marker : string := dquote +:+ "version" +:+ dquote.

Definition js_line (version : string) : string :=
  "  " +:+ dquote +:+ "version" +:+ dquote +:+ ": "
  +:+ dquote +:+ version +:+ dquote +:+ "," +:+ nl.

Definition set_jsversion (version : string) : M unit :=
  version ← normalize_version version;
  let package_json_path := slash (HERE env) "package.json" in
  package_json ← read_lines package_json_path;
  let package_json :=
    enumerate_from (length package_json) 0 (fun iline line package_json =>
      if Py.contains js_marker line
      then <[iline := js_line version]> package_json
      else package_json) package_json in
  write_lines package_json_path package_json.

Definition docs_marker : string := "dash_bootstrap_components".

Definition docs_line (version : string) : string :=
  "dash_bootstrap_components==" +:+ version +:+ nl.

Definition set_documentation_version (version : string) : M unit :=
  version ← normalize_version version;
  let docs_requirements_path := slash (slash (HERE env) "docs") "requirements.txt" in
  docs_requirements ← read_lines docs_requirements_path;
  let docs_requirements :=
    enumerate_from (length docs_requirements) 0 (fun iline line docs_requirements =>
      if Py.contains docs_marker line
      then let updated_line := docs_line version in
           <[iline := updated_line]> docs_requirements
      else docs_requirements) docs_requirements in
  write_lines docs_requirements_path docs_requirements.

Definition clean : M unit :=
  let paths_to_clean := ["dash_bootstrap_components/_components"; "dist/"; "lib/"] in
  for_each paths_to_clean (fun path => run ("rm -rf " +:+ path)).

Definition build_js : M unit :=
  chdir JS_DIR;;
  try_finally
    (run "npm install";;
     run "npm publish")
    (chdir (HERE env)).

Definition release_python_sdist : M unit :=
  run "rm -f dist/*";;
  run "python setup.py sdist";;
  invoke_run "twine upload dist/*" false false;;
  mret tt.

Definition build_publish (version : string) : M unit :=
  info "Cleaning";;
  clean;;
  info "Updating versions";;
  set_pyversion version;;
  set_jsversion version;;
  info "Building JavaScript components";;
  build_js;;
  info "Building and uploading Python source distribution";;
  info "PyPI credentials:";;
  release_python_sdist.

Definition prerelease (version : string) : M unit :=
  check_prerequisites;;
  info ("Releasing version " +:+ version +:+ " as prerelease");;
  build_publish version.

Definition release (version : string) : M unit :=
  check_prerequisites;;
  info ("Releasing version " +:+ version +:+ " as full release");;
  set_documentation_version version;;
  release_notes_lines ← get_release_notes version;
  release_notes_lines ← match release_notes_lines with
                        | None => error "No release notes: exiting";; exit None
                        | Some lines => mret lines
                        end;
  info "Writing release notes to changelog.tmp";;
  changelog_tmp ← relative "changelog.tmp";
  write_lines changelog_tmp release_notes_lines;;
  build_publish version;;
  info "Committing version changes";;
  run ("git checkout -b release-" +:+ version);;
  run ("git add package.json package-lock.json "
       +:+ "docs/requirements.txt "
       +:+ "dash_bootstrap_components/_version.py");;
  run ("git commit -m " +:+ dquote +:+ "Bump version to " +:+ version +:+ dquote);;
  info ("Tagging version " +:+ version +:+ " and pushing to GitHub");;
  run ("git tag -a " +:+ dquote +:+ version +:+ dquote +:+ " -F changelog.tmp");;
  run ("git push origin release-" +:+ version +:+ " --tags").

Definition copy_examples : M unit :=
  info "copying examples into docs directory";;
  run "cp examples/gallery/iris-kmeans/app.py docs/examples/vendor/iris.py";;
  run ("cp examples/advanced-component-usage/graphs_in_tabs.py "
       +:+ "docs/examples/vendor/graphs_in_tabs.py");;
  run ("cp examples/multi-page-apps/simple_sidebar.py "
       +:+ "docs/examples/vendor/simple_sidebar.py").

Definition documentation : M unit :=
  info "Pushing documentation to Heroku";;
  run "git checkout -b inv-push-docs";;
  run "git add docs/examples/vendor/*.py -f";;
  run ("git commit -m " +:+ dquote +:+ "Add examples" +:+ dquote +:+ " --allow-empty");;
  run "git subtree split --prefix docs -b inv-push-docs-subtree";;
  run "git push -f heroku inv-push-docs-subtree:master";;
  run "git checkout master";;
  run "git branch -D inv-push-docs inv-push-docs-subtree".

Definition postrelease (version : string) : M unit :=
  bumped ← match semver.bump_patch version with
           | Some s => mret s
           | None => raise ValueError
           end;
  let new_version := bumped +:+ "-dev" in
  info ("Bumping version numbers to " +:+ new_version +:+ " and committing");;
  set_pyversion new_version;;
  set_jsversion new_version;;
  run ("git checkout -b postrelease-" +:+ version);;
  run ("git add package.json package-lock.json "
       +:+ "dash_bootstrap_components/_version.py");;
  run ("git commit -m " +:+ dquote +:+ "Back to dev" +:+ dquote);;
  run ("git push origin postrelease-" +:+ version).

(** The task [postrelease] as the command line runs it: its declared
    pre-tasks first. *)
Definition postrelease_task (version : string) : M unit :=
  copy_examples;;
  documentation;;
  postrelease version.

End Tasks.

(** ** A sample installation, used to run the script on concrete inputs *)

Definition silent : Result := {| exited := 0; stdout := ""; stderr := "" |}.

Definition failing (code : Z) : Result :=
  {| exited := code; stdout := "some output"; stderr := "some error" |}.

(** Every tool is installed, every command succeeds, and the user adds one
    line of notes below the heading. *)
Definition sample_env : Environment := {|
  HERE := "/repo";
  which := fun executable => Some ("/usr/bin/" +:+ executable);
  EDITOR := None;
  shell := fun _ _ => silent;
  edited := fun _ initial => Some (initial +:+ "- New components" +:+ nl)
|}.

(** The same, but [npm publish] fails with status 3. *)
Definition npm_fails_env : Environment := {|
  HERE := "/repo";
  which := fun executable => Some ("/usr/bin/" +:+ executable);
  EDITOR := None;
  shell := fun command _ =>
    if String.eqb command "npm publish" then failing 3 else silent;
  edited := fun _ initial => Some (initial +:+ "- New components" +:+ nl)
|}.

(** The same as [sample_env], but the user deletes the heading. *)
Definition cancel_env : Environment := {|
  HERE := "/repo";
  which := fun executable => Some ("/usr/bin/" +:+ executable);
  EDITOR := Some "nano";
  shell := fun _ _ => silent;
  edited := fun _ _ => Some ("# Write the release notes here" +:+ nl)
|}.

Definition sample_init : string :=
  "from . import _components" +:+ nl
  +:+ "__version__ = " +:+ dquote +:+ "1.1.0" +:+ dquote +:+ nl
  +:+ "  # trailing  " +:+ nl.

Definition sample_package_json : string :=
  "{" +:+ nl
  +:+ "  " +:+ dquote +:+ "name" +:+ dquote +:+ ": " +:+ dquote +:+ "dbc" +:+ dquote +:+ "," +:+ nl
  +:+ "  " +:+ dquote +:+ "version" +:+ dquote +:+ ": " +:+ dquote +:+ "1.1.0" +:+ dquote +:+ "," +:+ nl
  +:+ "}".

Definition sample_requirements : string :=
  "dash==1.0" +:+ nl +:+ "dash_bootstrap_components==1.1.0" +:+ nl +:+ "gunicorn" +:+ nl.

Definition sample_files : gmap string string :=
  <["/repo/dash_bootstrap_components/__init__.py" := sample_init]>
  (<["/repo/package.json" := sample_package_json]>
  (<["/repo/docs/requirements.txt" := sample_requirements]> ∅)).

Definition sample_world : World :=
  {| files := sample_files; cwd := "/repo"; trace := [] |}.

(** A world started from another directory, with files that carry no
    version line. *)
Definition bare_world : World :=
  {| files := <["/repo/dash_bootstrap_components/__init__.py" := "import os" +:+ nl]>
              (<["/repo/package.json" := "{}" +:+ nl]>
              (<["/repo/docs/requirements.txt" := "dash==1.0" +:+ nl]> ∅));
     cwd := "/home/user"; trace := [] |}.

(** ** Notions used in the statements *)

(** The three operations that write a version into a metadata file, with the
    file each one rewrites, the test that marks the line to replace and the
    line it puts there. *)
Inductive metadata_op := Primary | Secondary | DocsPin.

Definition op_run (env : Environment) (op : metadata_op) : string -> M unit :=
  match op with
  | Primary => set_pyversion env
  | Secondary => set_jsversion env
  | DocsPin => set_documentation_version env
  end.

Definition op_path (env : Environment) (op : metadata_op) : string :=
  match op with
  | Primary => slash (DASH_BOOTSTRAP_DIR env) "__init__.py"
  | Secondary => slash (HERE env) "package.json"
  | DocsPin => slash (slash (HERE env) "docs") "requirements.txt"
  end.

Definition op_marker (op : metadata_op) (line : string) : bool :=
  match op with
  | Primary => Py.startswith line "__version__ = "
  | Secondary => Py.contains js_marker line
  | DocsPin => Py.contains docs_marker line
  end.

Definition op_render (op : metadata_op) (version : string) : string :=
  match op with
  | Primary => VERSION_TEMPLATE version
  | Secondary => js_line version
  | DocsPin => docs_line version
  end.

Definition fixture_path (env : Environment) : string :=
  slash (slash (HERE env) "tests") "test_version.py".

(** Line [i] is the one and only line that satisfies [p]. *)
Definition only_match (p : string -> bool) (lines : list string) (i : nat) : Prop :=
  (exists l, lines !! i = Some l /\ p l = true) /\
  forall j l, lines !! j = Some l -> p l = true -> j = i.

(** [after] is [before] with line [i] replaced by [new]: same number of
    lines, and every other line the same string. *)
Definition differs_only_at (i : nat) (new : string) (before after : list string) : Prop :=
  length after = length before /\
  after !! i = Some new /\
  forall j, j <> i -> after !! j = before !! j.

(** A line as [readlines] produces it: not empty, no newline before its last
    character, and ending in a newline when [closed]. *)
Fixpoint line_ok (closed : bool) (l : string) : bool :=
  match l with
  | EmptyString => false
  | String c r =>
      match r with
      | EmptyString => Ascii.eqb c "010" || negb closed
      | String _ _ => negb (Ascii.eqb c "010") && line_ok closed r
      end
  end.

Fixpoint lines_ok (ls : list string) : bool :=
  match ls with
  | [] => true
  | l :: ls' =>
      match ls' with
      | [] => line_ok false l
      | _ :: _ => line_ok true l && lines_ok ls'
      end
  end.

Definition no_newline (c : ascii) : bool := negb (Ascii.eqb c "010").

(** The world with more events on its trace. *)
Definition log (w : World) (events : list event) : World :=
  {| files := files w; cwd := cwd w; trace := trace w ++ events |}.

(** The world after [content] was written to [path]. *)
Definition written (w : World) (path content : string) : World :=
  {| files := <[path := content]> (files w); cwd := cwd w;
     trace := trace w ++ [Write path content] |}.

(** What [run] adds to the trace for a command with a given result. *)
Definition run_events (command : string) (result : Result) : list event :=
  if (exited result =? 0)%Z then [Invoke command]
  else [Invoke command; CPrint ("Error running " +:+ command) "red";
        Print (stdout result); Print ""; Print (stderr result)].

(** A computation that touches neither the files nor the working directory. *)
Definition only_logs {A} (m : M A) : Prop :=
  forall w, exists events, snd (m w) = log w events.

(** What the operator sees on the console. *)
Definition is_console (e : event) : bool :=
  match e with
  | Print _ | CPrint _ _ | Echo _ _ => true
  | _ => false
  end.

Definition console (events : list event) : list event := List.filter is_console events.

(** The subordinate commands that were issued. *)
Definition is_command (e : event) : bool :=
  match e with
  | Invoke _ => true
  | _ => false
  end.

Definition commands (events : list event) : list event := List.filter is_command events.

(** The text handed to the editor for a version. *)
Definition notes_template (version : string) : string :=
  RELEASE_NOTES_TEMPLATE version
    (Py.repeat_char "=" (String.length ("Version " +:+ version))).

Definition not_comment (line : string) : bool := negb (Py.startswith line "#").

(** What the replacement loops do to one line. *)
Definition replace_if (p : string -> bool) (new : string) (x : string) : string :=
  if p x then new else x.

(** Character classes of a rendered version. *)
Definition dot_or_digit (c : ascii) : bool :=
  semver.is_digit c || Ascii.eqb c ".".

Definition version_char (c : ascii) : bool :=
  semver.is_ident_char c || Ascii.eqb c ".".

Definition semver_char (c : ascii) : bool :=
  version_char c || Ascii.eqb c "+".

(** [major.minor.patch], the part of a version before its tags. *)
Definition core (a b c : N) : string :=
  semver.decimal a +:+ "." +:+ semver.decimal b +:+ "." +:+ semver.decimal c.

(** ** Further notions and sample inputs *)

(** The text [check_prerequisites] prints for a tool that is not found. *)
Definition not_found_message (executable : string) : string :=
  executable +:+ " executable not found. "
  +:+ "You must have " +:+ executable +:+ " to release "
  +:+ "dash-bootstrap-components.".

(** The world after [os.chdir(path)]. *)
Definition moved (w : World) (path : string) : World :=
  {| files := files w; cwd := path; trace := trace w ++ [Chdir path] |}.

(** The commands that appear in [build_publish] and what it calls. *)
Definition build_publish_commands : list string :=
  ["rm -rf dash_bootstrap_components/_components"; "rm -rf dist/"; "rm -rf lib/";
   "npm install"; "npm publish";
   "rm -f dist/*"; "python setup.py sdist"; "twine upload dist/*"].

(** The source-control commands of [release], after the build. *)
Definition release_git_commands (version : string) : list string :=
  ["git checkout -b release-" +:+ version;
   "git add package.json package-lock.json docs/requirements.txt "
     +:+ "dash_bootstrap_components/_version.py";
   "git commit -m " +:+ dquote +:+ "Bump version to " +:+ version +:+ dquote;
   "git tag -a " +:+ dquote +:+ version +:+ dquote +:+ " -F changelog.tmp";
   "git push origin release-" +:+ version +:+ " --tags"].

(** A computation whose subordinate commands all come from [allowed]. *)
Definition issues_only {A} (allowed : list string) (m : M A) : Prop :=
  forall w, exists events,
    trace (snd (m w)) = trace w ++ events /\
    forall command, In (Invoke command) events -> In command allowed.

(** A computation that returns [a], leaving the files [after], the working
    directory [directory], and having added to the trace events among which
    the commands are [issued]. *)
Definition effect {A} (m : M A) (w : World) (a : A)
    (after : gmap string string) (directory : string) (issued : list string) : Prop :=
  exists w' later, m w = (Ret a, w') /\ files w' = after /\ cwd w' = directory /\
                   trace w' = trace w ++ later /\
                   commands later = Invoke <$> issued.

(** The files the script itself opened for writing. *)
Definition is_write (e : event) : bool :=
  match e with
  | Write _ _ => true
  | _ => false
  end.

(** A computation in which the script opens no file for writing. *)
Definition writes_nothing {A} (m : M A) : Prop :=
  forall w, exists events,
    trace (snd (m w)) = trace w ++ events /\
    Forall (fun e => is_write e = false) events.

(** *** Files as bytes on disk *)

(** [os.linesep] of the platform the script runs on. *)
Inductive platform := Posix | Windows.

Definition linesep (p : platform) : string :=
  match p with
  | Posix => String "010" EmptyString
  | Windows => String "013" (String "010" EmptyString)
  end.

(** What a file opened for reading in text mode (as [open(path)] and
    [path.open("r")] do, with the default [newline=None]) hands to the
    script for the bytes on disk: a carriage return followed by a newline,
    and a carriage return alone, are read as one newline. *)
Fixpoint universal_newlines (bytes : string) : string :=
  match bytes with
  | EmptyString => EmptyString
  | String c rest =>
      if Ascii.eqb c "013" then
        match rest with
        | EmptyString => String "010" EmptyString
        | String c' rest' =>
            if Ascii.eqb c' "010" then String "010" (universal_newlines rest')
            else String "010" (universal_newlines rest)
        end
      else String c (universal_newlines rest)
  end.

(** What a file opened for writing in text mode stores for the text written:
    every newline as [os.linesep]. *)
Fixpoint with_linesep (p : platform) (text : string) : string :=
  match text with
  | EmptyString => EmptyString
  | String c rest =>
      if Ascii.eqb c "010" then linesep p +:+ with_linesep p rest
      else String c (with_linesep p rest)
  end.

(** The disk after the writes of a trace, in order. *)
Definition stored (p : platform) (events : list event)
    (disk : gmap string string) : gmap string string :=
  foldl (fun d e =>
           match e with
           | Write path content => <[path := with_linesep p content]> d
           | _ => d
           end) disk events.

(** A metadata operation run on the bytes on disk: what it reads is the text
    of the bytes, what it writes is stored with the line separator of the
    platform.  (Each operation reads its file before it writes anything.) *)
Definition op_on_disk (p : platform) (env : Environment) (op : metadata_op)
    (version directory : string) (disk : gmap string string)
    : outcome unit * gmap string string :=
  let '(r, w) := op_run env op version
                   {| files := universal_newlines <$> disk;
                      cwd := directory; trace := [] |} in
  (r, stored p (trace w) disk).

Definition no_cr (c : ascii) : bool := negb (Ascii.eqb c "013").

Definition cr : string := String "013" EmptyString.

(** A [package.json] and a marker-free file with DOS line endings. *)
Definition dos_package_json : string :=
  "{" +:+ cr +:+ nl
  +:+ "  " +:+ dquote +:+ "version" +:+ dquote +:+ ": " +:+ dquote +:+ "1.1.0" +:+ dquote +:+ "," +:+ cr +:+ nl
  +:+ "}" +:+ cr +:+ nl.

Definition dos_plain_json : string := "{}" +:+ cr +:+ nl.

(** The lines [get_release_notes] returns for the lines it kept. *)
Definition closed_notes (kept : list string) (final : string) : list string :=
  if Py.isspace final then kept else kept ++ [nl].

(** [npm] is not installed. *)
Definition no_npm_env : Environment := {|
  HERE := "/repo";
  which := fun executable =>
    if String.eqb executable "npm" then None else Some ("/usr/bin/" +:+ executable);
  EDITOR := None;
  shell := fun _ _ => silent;
  edited := fun _ initial => Some initial
|}.

(** [npm install] fails with status 2. *)
Definition install_fails_env : Environment := {|
  HERE := "/repo";
  which := fun executable => Some ("/usr/bin/" +:+ executable);
  EDITOR := None;
  shell := fun command _ =>
    if String.eqb command "npm install" then failing 2 else silent;
  edited := fun _ initial => Some initial
|}.

(** The upload fails with status 1. *)
Definition upload_fails_env : Environment := {|
  HERE := "/repo";
  which := fun executable => Some ("/usr/bin/" +:+ executable);
  EDITOR := None;
  shell := fun command _ =>
    if String.eqb command "twine upload dist/*" then failing 1 else silent;
  edited := fun _ initial => Some initial
|}.

(** Pushing the documentation fails with status 128. *)
Definition heroku_fails_env : Environment := {|
  HERE := "/repo";
  which := fun executable => Some ("/usr/bin/" +:+ executable);
  EDITOR := None;
  shell := fun command _ =>
    if String.eqb command "git push -f heroku inv-push-docs-subtree:master"
    then failing 128 else silent;
  edited := fun _ initial => Some initial
|}.

(** The user saves the template as it is. *)
Definition unchanged_env : Environment := {|
  HERE := "/repo";
  which := fun executable => Some ("/usr/bin/" +:+ executable);
  EDITOR := Some "nano";
  shell := fun _ _ => silent;
  edited := fun _ initial => Some initial
|}.

(** Files in which the marker of each operation occurs twice, the second
    time on a last line without newline. *)
Definition twin_init : string :=
  "__version__ = " +:+ dquote +:+ "0.1.0" +:+ dquote +:+ nl
  +:+ "x = 1" +:+ nl
  +:+ "__version__ = 3".

Definition twin_package_json : string :=
  "  " +:+ dquote +:+ "version" +:+ dquote +:+ ": " +:+ dquote +:+ "0.1.0" +:+ dquote +:+ "," +:+ nl
  +:+ "  " +:+ dquote +:+ "x" +:+ dquote +:+ ": 1," +:+ nl
  +:+ "  " +:+ dquote +:+ "lockfile" +:+ dquote +:+ ": { " +:+ dquote +:+ "version" +:+ dquote +:+ ": 2 }".

Definition twin_world : World :=
  {| files := <["/repo/dash_bootstrap_components/__init__.py" := twin_init]>
              (<["/repo/package.json" := twin_package_json]> ∅);
     cwd := "/work"; trace := [] |}.

(** ** Facts about strings and lines *)

Section StringFacts.

Lemma append_nil_l (s : string) : "" +:+ s = s.
Proof. reflexivity. Qed.

Lemma append_cons (c : ascii) (s t : string) :
  String c s +:+ t = String c (s +:+ t).
Proof. reflexivity. Qed.

Lemma append_nil_r (s : string) : s +:+ "" = s.
Proof.
  induction s as [|c s IH]; [done |]. by rewrite append_cons, IH.
Qed.

Lemma append_assoc (a b c : string) : (a +:+ b) +:+ c = a +:+ b +:+ c.
Proof.
  induction a as [|x a IH]; [done |]. by rewrite !append_cons, IH.
Qed.

Lemma join_cons (l : string) (ls : list string) :
  Py.join (l :: ls) = l +:+ Py.join ls.
Proof.
  unfold Py.join. destruct ls as [|l' ls].
  - symmetry. apply append_nil_r.
  - reflexivity.
Qed.

Lemma join_app (xs ys : list string) :
  Py.join (xs ++ ys) = Py.join xs +:+ Py.join ys.
Proof.
  induction xs as [|x xs IH]; [done |].
  rewrite <- app_comm_cons, !join_cons, IH. by rewrite append_assoc.
Qed.

(** Writing back the lines that were read gives the content that was read. *)
Lemma join_readlines (s : string) : Py.join (Py.readlines s) = s.
Proof.
  induction s as [|c s IH]; [done |].
  simpl. destruct (Ascii.eqb c "010").
  - by rewrite join_cons, IH.
  - destruct (Py.readlines s) as [|l ls].
    + cbn in IH. by subst s.
    + rewrite join_cons in IH. by rewrite join_cons, append_cons, IH.
Qed.

Lemma prefix_append (p s : string) : String.prefix p (p +:+ s) = true.
Proof.
  induction p as [|c p IH]; [by destruct s |].
  rewrite append_cons. simpl. destruct (ascii_dec c c); [done | congruence].
Qed.

Lemma contains_unfold (sub s : string) :
  Py.contains sub s =
  String.prefix sub s ||
  match s with
  | EmptyString => false
  | String _ s' => Py.contains sub s'
  end.
Proof. by destruct s. Qed.

Lemma contains_append_mid (a sub b : string) :
  Py.contains sub (a +:+ sub +:+ b) = true.
Proof.
  induction a as [|c a IH].
  - by rewrite append_nil_l, contains_unfold, prefix_append.
  - rewrite append_cons, contains_unfold, IH. apply orb_true_r.
Qed.

Lemma contains_nonempty (sub s : string) :
  sub ≠ "" → Py.contains sub s = true → s ≠ "".
Proof. intros Hsub H ->. destruct sub; [done | discriminate]. Qed.

End StringFacts.

(** ** Facts about the semantic-version library *)

Section SemverFacts.
Import semver.

Lemma cut_inv (sep : ascii) (s a : string) (b : option string) :
  cut sep s = (a, b) → s = a +:+ tagged sep b.
Proof.
  revert a b. induction s as [|c s IH]; intros a b H; simpl in H.
  - by inversion H.
  - destruct (Ascii.eqb c sep) eqn:E.
    + apply Ascii.eqb_eq in E. inversion H; subst. done.
    + destruct (cut sep s) as [a' b'] eqn:E'. inversion H; subst.
      rewrite append_cons. f_equal. by apply IH.
Qed.

Lemma split_on_join (sep : ascii) (s : string) :
  String.concat (String sep "") (split_on sep s) = s.
Proof.
  induction s as [|c s IH]; [done |].
  simpl. destruct (Ascii.eqb c sep) eqn:E.
  - apply Ascii.eqb_eq in E. subst c.
    destruct (split_on sep s) as [|p ps] eqn:Es.
    + destruct s; simpl in Es; [done |].
      destruct (Ascii.eqb a sep); [done |]. by destruct (split_on sep s).
    + cbn. cbn in IH. by rewrite IH.
  - destruct (split_on sep s) as [|p ps] eqn:Es.
    + cbn in IH. by subst s.
    + destruct ps as [|q ps]; cbn in IH |- *.
      * by subst.
      * rewrite append_cons. by rewrite IH.
Qed.

Lemma split_on_three (sep : ascii) (s a b c : string) :
  split_on sep s = [a; b; c] →
  s = a +:+ String sep (b +:+ String sep c).
Proof.
  intros H. rewrite <- (split_on_join sep s), H. done.
Qed.

Lemma numeric_decimal (s : string) (n : N) :
  numeric s = Some n → decimal n = s.
Proof.
  unfold numeric, decimal. destruct s as [|c r]; [done |].
  destruct (Ascii.eqb c "0" && negb (String.eqb r "")) eqn:E; [done |].
  intros H. destruct (NilEmpty.uint_of_string (String c r)) as [u|] eqn:Eu; [|done].
  injection H as <-. rewrite DecimalN.Unsigned.to_of.
  assert (Decimal.unorm u = u) as ->; [| by apply NilEmpty.sus].
  simpl in Eu. destruct (NilEmpty.uint_of_string r) as [d|] eqn:Er; [|done].
  destruct (uint_of_char_spec _ _ _ Eu) as [[-> ->]|H];
    [| by repeat (destruct H as [[_ ->]|H] || destruct H as [_ ->])].
  simpl in E. destruct (String.eqb r "") eqn:Er'; [|done].
  apply String.eqb_eq in Er'. subst r. simpl in Er. by injection Er as <-.
Qed.

Lemma parse_str (s : string) (v : VersionInfo) :
  parse_version_info s = Some v → str v = s.
Proof.
  unfold parse_version_info, str, format_version.
  destruct (cut "+" s) as [rest bld] eqn:E1.
  destruct (cut "-" rest) as [core pre] eqn:E2.
  destruct (split_on "." core) as [|ma [|mi [|pa [|? ?]]]] eqn:E3; try done.
  destruct (numeric ma) as [a|] eqn:Ea; [|done].
  destruct (numeric mi) as [b|] eqn:Eb; [|done].
  destruct (numeric pa) as [c|] eqn:Ec; [|done].
  destruct (_ && _); [|done]. intros [= <-]. simpl.
  rewrite (numeric_decimal _ _ Ea), (numeric_decimal _ _ Eb), (numeric_decimal _ _ Ec).
  apply cut_inv in E1, E2. apply split_on_three in E3. subst s rest core.
  repeat (rewrite append_assoc || rewrite append_cons || rewrite append_nil_l). done.
Qed.

Lemma to_uint_normal (n : N) : Decimal.unorm (N.to_uint n) = N.to_uint n.
Proof.
  rewrite <- DecimalN.Unsigned.to_of. by rewrite DecimalN.Unsigned.of_to.
Qed.

Lemma to_uint_head (n : N) (d : Decimal.uint) :
  N.to_uint n = Decimal.D0 d → d = Decimal.Nil.
Proof.
  intros H. pose proof (to_uint_normal n) as Hn. rewrite H in Hn.
  rewrite unorm_D0 in Hn. destruct (Decimal.nzhead d) eqn:Ed.
  - apply unorm_0 in Ed. rewrite Ed in Hn. by injection Hn.
  - exfalso. rewrite unorm_nzhead in Hn by congruence.
    by apply nzhead_nonzero in Hn.
  - rewrite unorm_nzhead in Hn by congruence. congruence.
  - rewrite unorm_nzhead in Hn by congruence. congruence.
  - rewrite unorm_nzhead in Hn by congruence. congruence.
  - rewrite unorm_nzhead in Hn by congruence. congruence.
  - rewrite unorm_nzhead in Hn by congruence. congruence.
  - rewrite unorm_nzhead in Hn by congruence. congruence.
  - rewrite unorm_nzhead in Hn by congruence. congruence.
  - rewrite unorm_nzhead in Hn by congruence. congruence.
  - rewrite unorm_nzhead in Hn by congruence. congruence.
Qed.

Lemma to_uint_nonnil (n : N) : N.to_uint n ≠ Decimal.Nil.
Proof. rewrite <- to_uint_normal. apply unorm_nonnil. Qed.

Lemma numeric_of_decimal (n : N) : numeric (decimal n) = Some n.
Proof.
  unfold numeric, decimal.
  destruct (NilEmpty.string_of_uint (N.to_uint n)) as [|c r] eqn:E.
  - destruct (N.to_uint n) eqn:En; try discriminate.
    by apply to_uint_nonnil in En.
  - rewrite <- E, NilEmpty.usu. cbn. rewrite DecimalN.Unsigned.of_to.
    destruct (Ascii.eqb c "0" && negb (String.eqb r "")) eqn:Ec; [|done].
    apply andb_prop in Ec as [Ec Er]. apply Ascii.eqb_eq in Ec. subst c.
    destruct (N.to_uint n) as [|d|d|d|d|d|d|d|d|d|d] eqn:En; try discriminate.
    apply to_uint_head in En. subst d. simpl in E. injection E as <-. done.
Qed.

Lemma decimal_digits (n : N) : all_chars is_digit (decimal n) = true.
Proof.
  unfold decimal, all_chars.
  induction (N.to_uint n) as [|d IH|d IH|d IH|d IH|d IH|d IH|d IH|d IH|d IH|d IH];
    simpl; by rewrite ?IH.
Qed.

(** Cutting and splitting at a separator that a prefix does not contain. *)
Lemma cut_append (sep : ascii) (p : ascii → bool) (a b : string) :
  p sep = false → all_chars p a = true →
  cut sep (a +:+ String sep b) = (a, Some b).
Proof.
  intros Hsep. unfold all_chars. induction a as [|c a IH]; intros Ha.
  - rewrite append_nil_l. simpl. by rewrite Ascii.eqb_refl.
  - simpl in Ha. apply andb_prop in Ha as [Hc Ha].
    rewrite append_cons. simpl.
    destruct (Ascii.eqb c sep) eqn:E; [apply Ascii.eqb_eq in E; congruence |].
    by rewrite IH.
Qed.

Lemma cut_none (sep : ascii) (p : ascii → bool) (a : string) :
  p sep = false → all_chars p a = true → cut sep a = (a, None).
Proof.
  intros Hsep. unfold all_chars. induction a as [|c a IH]; intros Ha; [done |].
  simpl in Ha. apply andb_prop in Ha as [Hc Ha]. simpl.
  destruct (Ascii.eqb c sep) eqn:E; [apply Ascii.eqb_eq in E; congruence |].
  by rewrite IH.
Qed.

Lemma split_on_none (sep : ascii) (p : ascii → bool) (a : string) :
  p sep = false → all_chars p a = true → split_on sep a = [a].
Proof.
  intros Hsep. unfold all_chars. induction a as [|c a IH]; intros Ha; [done |].
  simpl in Ha. apply andb_prop in Ha as [Hc Ha]. simpl.
  destruct (Ascii.eqb c sep) eqn:E; [apply Ascii.eqb_eq in E; congruence |].
  by rewrite IH.
Qed.

Lemma split_on_append (sep : ascii) (p : ascii → bool) (a b : string) :
  p sep = false → all_chars p a = true →
  split_on sep (a +:+ String sep b) = a :: split_on sep b.
Proof.
  intros Hsep. unfold all_chars. induction a as [|c a IH]; intros Ha.
  - rewrite append_nil_l. simpl. by rewrite Ascii.eqb_refl.
  - simpl in Ha. apply andb_prop in Ha as [Hc Ha].
    rewrite append_cons. simpl.
    destruct (Ascii.eqb c sep) eqn:E; [apply Ascii.eqb_eq in E; congruence |].
    by rewrite IH.
Qed.

Lemma all_chars_append (p : ascii → bool) (a b : string) :
  all_chars p (a +:+ b) = all_chars p a && all_chars p b.
Proof.
  unfold all_chars. induction a as [|c a IH]; [done |].
  rewrite append_cons. simpl. by rewrite IH, andb_assoc.
Qed.

Lemma all_chars_weaken (p q : ascii → bool) (s : string) :
  (∀ c, p c = true → q c = true) → all_chars p s = true → all_chars q s = true.
Proof.
  intros Hpq. unfold all_chars. induction s as [|c s IH]; [done |].
  simpl. intros [Hc Hs]%andb_prop. by rewrite (Hpq _ Hc), IH.
Qed.

Lemma core_chars (a b c : N) :
  all_chars dot_or_digit (decimal a +:+ "." +:+ decimal b +:+ "." +:+ decimal c) = true.
Proof.
  assert (∀ n, all_chars dot_or_digit (decimal n) = true) as Hd.
  { intros n. apply (all_chars_weaken is_digit); [| apply decimal_digits].
    intros x Hx. unfold dot_or_digit. by rewrite Hx. }
  by rewrite !all_chars_append, !Hd.
Qed.

Lemma split_core (a b c : N) :
  split_on "." (decimal a +:+ "." +:+ decimal b +:+ "." +:+ decimal c)
  = [decimal a; decimal b; decimal c].
Proof.
  rewrite !append_cons, !append_nil_l.
  rewrite (split_on_append "." is_digit), (split_on_append "." is_digit),
    (split_on_none "." is_digit);
    first [reflexivity | apply decimal_digits].
Qed.

Lemma split_on_nonnil (sep : ascii) (s : string) : split_on sep s ≠ [].
Proof.
  destruct s as [|c s]; [done |]. simpl.
  destruct (Ascii.eqb c sep); [done |]. by destruct (split_on sep s).
Qed.

Lemma pieces_chars (s : string) :
  forallb (all_chars is_ident_char) (split_on "." s) = true →
  all_chars version_char s = true.
Proof.
  induction s as [|c s IH]; [done |].
  simpl. destruct (Ascii.eqb c ".") eqn:E.
  - simpl. intros H. unfold all_chars in *. simpl.
    unfold version_char at 1. rewrite E, orb_true_r. by apply IH.
  - destruct (split_on "." s) as [|p ps] eqn:Es; simpl.
    + by apply split_on_nonnil in Es.
    + unfold all_chars at 1. simpl.
      intros [[Hc Hp]%andb_prop Hps]%andb_prop.
      unfold all_chars in *. simpl. unfold version_char at 1. rewrite Hc. simpl.
      apply IH. simpl. by rewrite Hp, Hps.
Qed.

Lemma pre_identifier_chars (s : string) :
  pre_identifier s = true → all_chars is_ident_char s = true.
Proof.
  destruct s as [|c r]; [done |]. simpl.
  destruct (Ascii.eqb c "0") eqn:E.
  - intros ->%String.eqb_eq. apply Ascii.eqb_eq in E. by subst c.
  - done.
Qed.

Lemma build_identifier_chars (s : string) :
  build_identifier s = true → all_chars is_ident_char s = true.
Proof. by destruct s. Qed.

Lemma forallb_weaken {A} (p q : A → bool) (xs : list A) :
  (∀ x, p x = true → q x = true) → forallb p xs = true → forallb q xs = true.
Proof.
  intros Hpq. induction xs as [|x xs IH]; [done |].
  simpl. intros [Hx Hxs]%andb_prop. by rewrite (Hpq _ Hx), IH.
Qed.

Lemma tagged_chars (q : string → bool) (mark : ascii) (o : option string) :
  (∀ x, q x = true → all_chars is_ident_char x = true) →
  version_char mark = true →
  dotted q o = true → all_chars version_char (tagged mark o) = true.
Proof.
  intros Hq Hm. destruct o as [s|]; [|done]. simpl. intros H.
  unfold all_chars. simpl. rewrite Hm. simpl.
  apply pieces_chars. by apply (forallb_weaken q).
Qed.

Lemma format_version_core (a b c : N) (pre bld : option string) :
  format_version a b c pre bld = (core a b c +:+ tagged "-" pre) +:+ tagged "+" bld.
Proof. unfold format_version, core. by rewrite !append_assoc. Qed.

Lemma cut_tagged (sep : ascii) (p : ascii → bool) (a : string) (o : option string) :
  p sep = false → all_chars p a = true →
  cut sep (a +:+ tagged sep o) = (a, o).
Proof.
  intros Hsep Ha. destruct o as [b|]; simpl.
  - by apply (cut_append sep p).
  - rewrite append_nil_r. by apply (cut_none sep p).
Qed.

(** A version that [format_version] renders parses back to its parts, when
    its tags are well formed. *)
Lemma parse_format (a b c : N) (pre bld : option string) :
  dotted pre_identifier pre = true → dotted build_identifier bld = true →
  parse_version_info (format_version a b c pre bld)
  = Some {| major := a; minor := b; patch := c; prerelease := pre; build := bld |}.
Proof.
  intros Hpre Hbld. unfold parse_version_info.
  rewrite format_version_core, (cut_tagged "+" version_char); [| done |].
  - rewrite (cut_tagged "-" dot_or_digit); [| done | apply core_chars].
    unfold core. rewrite split_core, !numeric_of_decimal, Hpre, Hbld. done.
  - rewrite all_chars_append. apply andb_true_intro. split.
    + apply (all_chars_weaken dot_or_digit); [| apply core_chars].
      intros x. unfold dot_or_digit, version_char, is_ident_char.
      destruct (is_digit x); [done |]. simpl. intros ->. apply orb_true_r.
    + by apply (tagged_chars pre_identifier); [apply pre_identifier_chars | |].
Qed.

(** The next development version of a valid version is itself valid. *)
Lemma parse_bump_dev (version bumped : string) :
  bump_patch version = Some bumped →
  ∃ v, parse_version_info (bumped +:+ "-dev") = Some v.
Proof.
  unfold bump_patch. destruct (parse_version_info version) as [v|]; [|done].
  simpl. intros [= <-].
  eexists. rewrite <- (parse_format (major v) (minor v) (patch v + 1) (Some "dev") None);
    [| done | done].
  f_equal. rewrite !format_version_core. simpl. by rewrite !append_nil_r.
Qed.

End SemverFacts.

(** ** Facts about lines and the replacement loops *)

Section LineFacts.

Lemma line_ok_nonempty (closed : bool) (l : string) : line_ok closed l = true → l ≠ "".
Proof. by destruct l. Qed.

Lemma line_ok_cons (closed : bool) (c : ascii) (l : string) :
  l ≠ "" → line_ok closed (String c l) = negb (Ascii.eqb c "010") && line_ok closed l.
Proof. by destruct l. Qed.

Lemma line_ok_open (l : string) : line_ok true l = true → line_ok false l = true.
Proof.
  induction l as [|c r IH]; [done |]. destruct r as [|c' r'].
  - simpl. intros H. by rewrite orb_true_r.
  - intros H. rewrite line_ok_cons in H by done. rewrite line_ok_cons by done.
    apply andb_prop in H as [Hc H]. by rewrite Hc, IH.
Qed.

Lemma lines_ok_cons (l : string) (ls : list string) :
  ls ≠ [] → lines_ok (l :: ls) = line_ok true l && lines_ok ls.
Proof. by destruct ls. Qed.

Lemma readlines_cons (c : ascii) (s : string) :
  Py.readlines (String c s) =
  if Ascii.eqb c "010" then String c EmptyString :: Py.readlines s
  else match Py.readlines s with
       | [] => [String c EmptyString]
       | l :: ls => String c l :: ls
       end.
Proof. reflexivity. Qed.

Lemma readlines_closed (l s : string) :
  line_ok true l = true → Py.readlines (l +:+ s) = l :: Py.readlines s.
Proof.
  induction l as [|c r IH]; [done |]. destruct r as [|c' r'].
  - intros H. simpl in H. rewrite orb_false_r in H.
    change (String c "" +:+ s) with (String c s). simpl. by rewrite H.
  - rewrite line_ok_cons by done. intros [Hc H]%andb_prop.
    apply negb_true_iff in Hc.
    by rewrite append_cons, readlines_cons, Hc, IH.
Qed.

Lemma readlines_open (l : string) :
  line_ok false l = true → Py.readlines l = [l].
Proof.
  induction l as [|c r IH]; [done |]. destruct r as [|c' r'].
  - intros _. simpl. by destruct (Ascii.eqb c "010").
  - rewrite line_ok_cons by done. intros [Hc H]%andb_prop.
    apply negb_true_iff in Hc. by rewrite readlines_cons, Hc, IH.
Qed.

(** Lines that are well formed are read back as they were written. *)
Lemma readlines_join (ls : list string) :
  lines_ok ls = true → Py.readlines (Py.join ls) = ls.
Proof.
  induction ls as [|l ls IH]; [done |]. destruct ls as [|l' ls'].
  - intros H. apply readlines_open. exact H.
  - rewrite lines_ok_cons by done. intros [Hl Hls]%andb_prop.
    rewrite join_cons, readlines_closed by done. by rewrite IH.
Qed.

(** What [readlines] returns is well formed. *)
Lemma readlines_ok (s : string) : lines_ok (Py.readlines s) = true.
Proof.
  induction s as [|c s IH]; [done |]. simpl.
  destruct (Ascii.eqb c "010") eqn:E.
  - destruct (Py.readlines s) as [|l ls] eqn:El.
    + simpl. by rewrite E.
    + rewrite lines_ok_cons by done. simpl. by rewrite E.
  - destruct (Py.readlines s) as [|l ls] eqn:El.
    + simpl. by rewrite E.
    + destruct ls as [|l' ls'].
      * change (line_ok false l = true) in IH.
        change (line_ok false (String c l) = true).
        rewrite line_ok_cons by (by eapply line_ok_nonempty).
        by rewrite E, IH.
      * rewrite lines_ok_cons in IH |- * by done.
        apply andb_prop in IH as [Hl Hls].
        rewrite line_ok_cons by (by eapply line_ok_nonempty).
        by rewrite E, Hl, Hls.
Qed.

(** Replacing a line by a closed line keeps the lines well formed. *)
Lemma lines_ok_insert (ls : list string) (i : nat) (new : string) :
  lines_ok ls = true → line_ok true new = true → lines_ok (<[i := new]> ls) = true.
Proof.
  intros Hls Hnew. revert i Hls. induction ls as [|l ls IH]; intros i Hls; [done |].
  destruct i as [|i].
  - change (<[0:=new]> (l :: ls)) with (new :: ls). destruct ls as [|l' ls'].
    + by apply line_ok_open.
    + rewrite lines_ok_cons in Hls |- * by done.
      apply andb_prop in Hls as [_ Hls]. by rewrite Hnew, Hls.
  - change (<[S i:=new]> (l :: ls)) with (l :: <[i:=new]> ls).
    destruct ls as [|l' ls']; [done |].
    rewrite lines_ok_cons in Hls by done. apply andb_prop in Hls as [Hl Hls].
    rewrite lines_ok_cons.
    + by rewrite Hl, IH.
    + intros E. apply (f_equal length) in E. by rewrite length_insert in E.
Qed.

(** A text without newline, closed by one, is a closed line. *)
Lemma line_ok_closed (s : string) :
  semver.all_chars no_newline s = true → line_ok true (s +:+ nl) = true.
Proof.
  unfold semver.all_chars. induction s as [|c s IH]; [done |].
  intros H. simpl in H. apply andb_prop in H as [Hc Hs].
  rewrite append_cons, line_ok_cons.
  - unfold no_newline in Hc. by rewrite Hc, IH.
  - by destruct s.
Qed.

End LineFacts.

Section LoopFacts.

Lemma index_true_Some {A} (p : A → bool) (xs : list A) (i : nat) :
  Py.index_true p xs = Some i →
  ∃ x, xs !! i = Some x ∧ p x = true.
Proof.
  revert i. induction xs as [|x xs IH]; intros i; [done |]. simpl.
  destruct (p x) eqn:E.
  - intros [= <-]. by exists x.
  - destruct (Py.index_true p xs) as [k|]; [|done]. simpl. intros [= <-].
    by apply IH.
Qed.

Lemma index_true_None {A} (p : A → bool) (xs : list A) :
  (∀ x, x ∈ xs → p x = false) → Py.index_true p xs = None.
Proof.
  induction xs as [|x xs IH]; intros H; [done |]. simpl.
  rewrite (H x) by apply list_elem_of_here. rewrite IH; [done |].
  intros y Hy. apply H. by apply list_elem_of_further.
Qed.

Lemma index_true_is_Some {A} (p : A → bool) (xs : list A) (i : nat) (x : A) :
  xs !! i = Some x → p x = true → is_Some (Py.index_true p xs).
Proof.
  revert i. induction xs as [|y xs IH]; intros i; [done |]. simpl.
  destruct (p y) eqn:Ey; [by eexists |]. destruct i as [|i]; simpl.
  - intros [= ->] Hx. congruence.
  - intros Hi Hx. destruct (IH i Hi Hx) as [k ->]. by eexists.
Qed.

Lemma index_true_only (p : string → bool) (xs : list string) (i : nat) :
  only_match p xs i → Py.index_true p xs = Some i.
Proof.
  intros [(x & Hx & Hp) Huniq].
  destruct (index_true_is_Some p xs i x Hx Hp) as [k Hk].
  destruct (index_true_Some p xs k Hk) as (y & Hy & Hpy).
  by rewrite Hk, (Huniq k y Hy Hpy).
Qed.

Lemma enumerate_from_replace (p : string → bool) (new : string)
    (fuel i : nat) (xs : list string) :
  length xs ≤ i + fuel →
  enumerate_from fuel i (λ k x l, if p x then <[k := new]> l else l) xs
  = take i xs ++ (replace_if p new <$> drop i xs).
Proof.
  revert i xs. induction fuel as [|fuel IH]; intros i xs Hlen.
  - simpl. rewrite drop_ge by lia. rewrite take_ge by lia. by rewrite app_nil_r.
  - simpl. destruct (xs !! i) as [x|] eqn:Hx.
    + assert (i < length xs) as Hi by (by eapply lookup_lt_Some).
      assert ((if p x then <[i := new]> xs else xs) = <[i := replace_if p new x]> xs) as ->.
      { unfold replace_if. destruct (p x); [done |]. by rewrite list_insert_id. }
      rewrite IH by (rewrite length_insert; lia).
      rewrite (drop_S xs x i Hx), fmap_cons.
      rewrite (take_S_r (<[i:=replace_if p new x]> xs) i (replace_if p new x))
        by (by apply list_lookup_insert_eq).
      rewrite take_insert_ge by lia. rewrite drop_insert_lt by lia.
      by rewrite <- app_assoc.
    + apply lookup_ge_None in Hx. rewrite drop_ge by lia. rewrite take_ge by lia.
      by rewrite app_nil_r.
Qed.

Lemma enumerate_replace (p : string → bool) (new : string) (xs : list string) :
  enumerate_from (length xs) 0 (λ k x l, if p x then <[k := new]> l else l) xs
  = replace_if p new <$> xs.
Proof. by rewrite enumerate_from_replace by lia. Qed.

Lemma replace_only (p : string → bool) (new : string) (xs : list string) (i : nat) :
  only_match p xs i → replace_if p new <$> xs = <[i := new]> xs.
Proof.
  intros [(x & Hx & Hp) Huniq]. apply list_eq. intros j.
  rewrite list_lookup_fmap. destruct (decide (j = i)) as [->|Hne].
  - rewrite list_lookup_insert_eq by (by eapply lookup_lt_Some).
    rewrite Hx. simpl. unfold replace_if. by rewrite Hp.
  - rewrite list_lookup_insert_ne by done.
    destruct (xs !! j) as [y|] eqn:Hy; [|done]. simpl. unfold replace_if.
    destruct (p y) eqn:Hpy; [|done]. by specialize (Huniq j y Hy Hpy).
Qed.

Lemma replace_none (p : string → bool) (new : string) (xs : list string) :
  (∀ x, x ∈ xs → p x = false) → replace_if p new <$> xs = xs.
Proof.
  intros H. induction xs as [|x xs IH]; [done |]. rewrite fmap_cons. f_equal.
  - unfold replace_if. by rewrite H by apply list_elem_of_here.
  - apply IH. intros y Hy. apply H. by apply list_elem_of_further.
Qed.

Lemma differs_only_at_insert (i : nat) (new : string) (xs : list string) :
  i < length xs → differs_only_at i new xs (<[i := new]> xs).
Proof.
  intros Hi. split; [apply length_insert |]. split.
  - by apply list_lookup_insert_eq.
  - intros j Hj. by apply list_lookup_insert_ne.
Qed.

End LoopFacts.

(** ** Facts about rendered versions and lines *)

Section VersionFacts.
Import semver.

Lemma parse_inv (s : string) (v : VersionInfo) :
  parse_version_info s = Some v →
  dotted pre_identifier (prerelease v) = true ∧
  dotted build_identifier (build v) = true.
Proof.
  unfold parse_version_info.
  destruct (cut "+" s) as [rest bld].
  destruct (cut "-" rest) as [cr pre].
  destruct (split_on "." cr) as [|ma [|mi [|pa [|? ?]]]]; try done.
  destruct (numeric ma), (numeric mi), (numeric pa); try done.
  destruct (dotted pre_identifier pre) eqn:E1; [|done].
  destruct (dotted build_identifier bld) eqn:E2; [|done].
  by intros [= <-].
Qed.

Lemma version_char_semver (c : ascii) : version_char c = true → semver_char c = true.
Proof. unfold semver_char. by intros ->. Qed.

Lemma dot_or_digit_version (c : ascii) : dot_or_digit c = true → version_char c = true.
Proof.
  unfold dot_or_digit, version_char, is_ident_char.
  destruct (is_digit c); [done |]. simpl. intros ->. apply orb_true_r.
Qed.

Lemma tagged_semver_chars (q : string → bool) (mark : ascii) (o : option string) :
  (∀ x, q x = true → all_chars is_ident_char x = true) →
  semver_char mark = true →
  dotted q o = true → all_chars semver_char (tagged mark o) = true.
Proof.
  intros Hq Hm. destruct o as [s|]; [|done]. simpl. intros H.
  unfold all_chars. simpl. rewrite Hm. simpl.
  apply (all_chars_weaken version_char); [apply version_char_semver |].
  apply pieces_chars. by apply (forallb_weaken q).
Qed.

(** A valid version is made of letters, digits, dots, hyphens and pluses. *)
Lemma parse_chars (s : string) (v : VersionInfo) :
  parse_version_info s = Some v → all_chars semver_char s = true.
Proof.
  intros H. destruct (parse_inv _ _ H) as [Hpre Hbld].
  rewrite <- (parse_str _ _ H). unfold str.
  rewrite format_version_core, !all_chars_append.
  rewrite (all_chars_weaken dot_or_digit semver_char);
    [| intros c Hc; by apply version_char_semver, dot_or_digit_version
     | apply core_chars ].
  rewrite (tagged_semver_chars pre_identifier) by (done || apply pre_identifier_chars).
  rewrite (tagged_semver_chars build_identifier)
    by (done || apply build_identifier_chars).
  done.
Qed.

Lemma semver_char_no_newline (c : ascii) : semver_char c = true → no_newline c = true.
Proof.
  intros H. unfold no_newline. destruct (Ascii.eqb c "010") eqn:E; [|done].
  apply Ascii.eqb_eq in E. by subst c.
Qed.

Lemma parse_no_newline (s : string) (v : VersionInfo) :
  parse_version_info s = Some v → all_chars no_newline s = true.
Proof.
  intros H. apply (all_chars_weaken semver_char); [apply semver_char_no_newline |].
  by eapply parse_chars.
Qed.

Lemma parse_nonempty (s : string) (v : VersionInfo) :
  parse_version_info s = Some v → s ≠ "".
Proof. by intros H ->. Qed.

End VersionFacts.

Section RenderFacts.

Lemma all_chars_literal (p : ascii → bool) (s t : string) :
  semver.all_chars p s = true → semver.all_chars p t = true →
  semver.all_chars p (s +:+ t) = true.
Proof. intros Hs Ht. by rewrite all_chars_append, Hs, Ht. Qed.

(** The line each operation renders is one closed line. *)
Lemma op_render_closed (op : metadata_op) (version : string) :
  semver.all_chars no_newline version = true →
  line_ok true (op_render op version) = true.
Proof.
  intros Hv. destruct op; cbn [op_render];
    unfold VERSION_TEMPLATE, js_line, docs_line;
    rewrite <- ?append_assoc; apply line_ok_closed;
    repeat (apply all_chars_literal; [| done]); done.
Qed.

Lemma paths_differ (h a b : string) : a ≠ b → h +:+ a ≠ h +:+ b.
Proof. intros Hne Heq. by apply (inj (String.append h)) in Heq. Qed.

End RenderFacts.

(** ** Facts about the script *)

Section StepFacts.

Variable env : Environment.

Lemma bind_ret {A B} (m : M A) (f : A → M B) (w w' : World) (a : A) :
  m w = (Ret a, w') → (m ≫= f) w = f a w'.
Proof. intros H. unfold mbind, M_bind. by rewrite H. Qed.

Lemma bind_raise {A B} (m : M A) (f : A → M B) (w w' : World) (e : exn) :
  m w = (Raise e, w') → (m ≫= f) w = (Raise e, w').
Proof. intros H. unfold mbind, M_bind. by rewrite H. Qed.

Lemma log_nil (w : World) : log w [] = w.
Proof. destruct w. unfold log. simpl. by rewrite app_nil_r. Qed.

Lemma log_log (w : World) (xs ys : list event) : log (log w xs) ys = log w (xs ++ ys).
Proof. unfold log. simpl. by rewrite app_assoc. Qed.

Lemma normalize_valid (version : string) (v : semver.VersionInfo) (w : World) :
  semver.parse_version_info version = Some v →
  normalize_version version w = (Ret version, w).
Proof.
  intros H. unfold normalize_version. rewrite H. by rewrite (parse_str _ _ H).
Qed.

Lemma normalize_invalid (version : string) (w : World) :
  semver.parse_version_info version = None →
  normalize_version version w = (Raise ValueError, w).
Proof. intros H. unfold normalize_version. by rewrite H. Qed.

Lemma read_lines_Some (path content : string) (w : World) :
  files w !! path = Some content →
  read_lines path w = (Ret (Py.readlines content), w).
Proof. intros H. unfold read_lines. by rewrite H. Qed.

(** *** What each metadata operation does *)

Lemma set_jsversion_outcome (version content : string) (v : semver.VersionInfo) (w : World) :
  semver.parse_version_info version = Some v →
  files w !! op_path env Secondary = Some content →
  set_jsversion env version w =
  (Ret tt, written w (op_path env Secondary)
     (Py.join (replace_if (op_marker Secondary) (js_line version) <$> Py.readlines content))).
Proof.
  intros Hv Hf. unfold set_jsversion.
  rewrite (bind_ret _ _ _ _ _ (normalize_valid _ _ _ Hv)).
  rewrite (bind_ret _ _ _ _ _ (read_lines_Some _ _ _ Hf)).
  by rewrite enumerate_replace.
Qed.

Lemma set_documentation_version_outcome
    (version content : string) (v : semver.VersionInfo) (w : World) :
  semver.parse_version_info version = Some v →
  files w !! op_path env DocsPin = Some content →
  set_documentation_version env version w =
  (Ret tt, written w (op_path env DocsPin)
     (Py.join (replace_if (op_marker DocsPin) (docs_line version) <$> Py.readlines content))).
Proof.
  intros Hv Hf. unfold set_documentation_version.
  rewrite (bind_ret _ _ _ _ _ (normalize_valid _ _ _ Hv)).
  rewrite (bind_ret _ _ _ _ _ (read_lines_Some _ _ _ Hf)).
  by rewrite enumerate_replace.
Qed.

Lemma set_pyversion_outcome
    (version content : string) (v : semver.VersionInfo) (i : nat) (w : World) :
  semver.parse_version_info version = Some v →
  files w !! op_path env Primary = Some content →
  Py.index_true (op_marker Primary) (Py.readlines content) = Some i →
  set_pyversion env version w =
  (Ret tt,
   written
     (written w (op_path env Primary)
        (Py.join (<[i := VERSION_TEMPLATE version]> (Py.readlines content))))
     (fixture_path env) (TEST_VERSION_TEMPLATE version)).
Proof.
  intros Hv Hf Hi. unfold set_pyversion.
  rewrite (bind_ret _ _ _ _ _ (normalize_valid _ _ _ Hv)).
  rewrite (bind_ret _ _ _ _ _ (read_lines_Some _ _ _ Hf)).
  unfold op_marker in Hi. rewrite Hi. done.
Qed.

Lemma set_pyversion_no_marker (version content : string) (w : World) :
  files w !! op_path env Primary = Some content →
  Py.index_true (op_marker Primary) (Py.readlines content) = None →
  set_pyversion env version w = (Raise ValueError, w).
Proof.
  intros Hf Hi. unfold set_pyversion.
  destruct (semver.parse_version_info version) as [v|] eqn:Hv.
  - rewrite (bind_ret _ _ _ _ _ (normalize_valid _ _ _ Hv)).
    rewrite (bind_ret _ _ _ _ _ (read_lines_Some _ _ _ Hf)).
    unfold op_marker in Hi. by rewrite Hi.
  - by rewrite (bind_raise _ _ _ _ _ (normalize_invalid _ _ Hv)).
Qed.

Lemma op_run_invalid (op : metadata_op) (version : string) (w : World) :
  semver.parse_version_info version = None →
  op_run env op version w = (Raise ValueError, w).
Proof.
  intros Hv. destruct op; cbn [op_run];
    unfold set_pyversion, set_jsversion, set_documentation_version;
    by rewrite (bind_raise _ _ _ _ _ (normalize_invalid _ _ Hv)).
Qed.

(** With exactly one marked line, every operation writes the lines it read
    with that line replaced. *)
Lemma op_run_outcome (op : metadata_op) (version content : string)
    (v : semver.VersionInfo) (i : nat) (w : World) :
  semver.parse_version_info version = Some v →
  files w !! op_path env op = Some content →
  only_match (op_marker op) (Py.readlines content) i →
  ∃ w', op_run env op version w = (Ret tt, w') ∧
        files w' !! op_path env op =
        Some (Py.join (<[i := op_render op version]> (Py.readlines content))).
Proof.
  intros Hv Hf Hi. destruct op; cbn [op_run op_render].
  - rewrite (set_pyversion_outcome _ _ _ i _ Hv Hf) by (by apply index_true_only).
    eexists. split; [done |]. cbn [written files].
    rewrite lookup_insert_ne; [by rewrite lookup_insert_eq |].
    unfold fixture_path, op_path, DASH_BOOTSTRAP_DIR, slash.
    rewrite !append_assoc. by apply paths_differ.
  - rewrite (set_jsversion_outcome _ _ _ _ Hv Hf).
    eexists. split; [done |]. cbn [written files].
    by rewrite lookup_insert_eq, (replace_only _ _ _ i).
  - rewrite (set_documentation_version_outcome _ _ _ _ Hv Hf).
    eexists. split; [done |]. cbn [written files].
    by rewrite lookup_insert_eq, (replace_only _ _ _ i).
Qed.

(** *** Commands *)

Lemma run_outcome (command : string) (w : World) :
  let result := shell env command w in
  run env command w =
  (if (exited result =? 0)%Z then Ret tt else Raise (SystemExit (Some (exited result))),
   log w (run_events command result)).
Proof.
  unfold run, run_events, mbind, M_bind, invoke_run. simpl.
  destruct (exited (shell env command w) =? 0)%Z eqn:E; simpl.
  - done.
  - unfold log. simpl. rewrite <- !app_assoc. done.
Qed.

End StepFacts.

Section FlowFacts.

Variable env : Environment.

Lemma only_logs_ret {A} (a : A) : only_logs (mret a : M A).
Proof. intros w. exists []. by rewrite log_nil. Qed.

Lemma only_logs_raise {A} (e : exn) : only_logs (raise e : M A).
Proof. intros w. exists []. by rewrite log_nil. Qed.

Lemma only_logs_emit (e : event) : only_logs (emit e).
Proof. intros w. by exists [e]. Qed.

Lemma only_logs_bind {A B} (m : M A) (f : A → M B) :
  only_logs m → (∀ a, only_logs (f a)) → only_logs (m ≫= f).
Proof.
  intros Hm Hf w. destruct (Hm w) as [xs Hxs]. unfold mbind, M_bind.
  destruct (m w) as [[a|e] w1]; simpl in Hxs; subst w1.
  - destruct (Hf a (log w xs)) as [ys Hys]. exists (xs ++ ys).
    by rewrite Hys, log_log.
  - by exists xs.
Qed.

Lemma only_logs_run (command : string) : only_logs (run env command).
Proof. intros w. eexists. by rewrite run_outcome. Qed.

Lemma only_logs_files {A} (m : M A) (w : World) :
  only_logs m → files (snd (m w)) = files w.
Proof. intros H. destruct (H w) as [xs ->]. done. Qed.

Lemma only_logs_cwd {A} (m : M A) (w : World) :
  only_logs m → cwd (snd (m w)) = cwd w.
Proof. intros H. destruct (H w) as [xs ->]. done. Qed.

Lemma check_prerequisites_found (w : World) :
  (∀ executable, executable ∈ ["twine"; "npm"; "dash-generate-components"] →
     is_Some (which env executable)) →
  check_prerequisites env w = (Ret tt, w).
Proof.
  intros H. unfold check_prerequisites. simpl. unfold mbind, M_bind.
  destruct (H "twine") as [? ->]; [set_solver |].
  destruct (H "npm") as [? ->]; [set_solver |].
  destruct (H "dash-generate-components") as [? ->]; [set_solver |].
  done.
Qed.

Lemma open_editor_saved (message saved : string) (w : World) :
  edited env (default "vim" (EDITOR env)) message = Some saved →
  open_editor env message w
  = (Ret (Py.readlines saved), log w [Edit (default "vim" (EDITOR env)) message]).
Proof. intros H. unfold open_editor, mbind, M_bind. simpl. by rewrite H. Qed.

Lemma join_nil_inv (ls : list string) (s : string) :
  s ≠ "" → Py.contains s (Py.join ls) = true → ls ≠ [].
Proof. intros Hs H ->. by apply (contains_nonempty s "") in H. Qed.

(** The three ways [get_release_notes] ends once the editor has saved. *)
Lemma get_release_notes_outcome (version saved : string) (v : semver.VersionInfo) (w : World) :
  semver.parse_version_info version = Some v →
  edited env (default "vim" (EDITOR env)) (notes_template version) = Some saved →
  let kept := List.filter not_comment (Py.readlines saved) in
  get_release_notes env version w =
  (if Py.contains version (Py.join kept) then
     match last kept with
     | None => Raise IndexError
     | Some final => Ret (Some (if Py.isspace final then kept else kept ++ [nl]))
     end
   else Ret None,
   log w [Edit (default "vim" (EDITOR env)) (notes_template version)]).
Proof.
  intros Hv Hsaved kept. unfold get_release_notes.
  rewrite (bind_ret _ _ _ _ _ (normalize_valid _ _ _ Hv)).
  rewrite (bind_ret _ _ _ _ _ (open_editor_saved _ _ _ Hsaved)).
  fold not_comment. fold kept.
  destruct (Py.contains version (Py.join kept)); [|done].
  unfold Py.last_item. destruct (last kept) as [final|]; [|done].
  by destruct (Py.isspace final).
Qed.

End FlowFacts.

Section MoreFacts.
Variable env : Environment.

Lemma primary_not_fixture : op_path env Primary ≠ fixture_path env.
Proof.
  unfold fixture_path, op_path, DASH_BOOTSTRAP_DIR, slash.
  rewrite !append_assoc. by apply paths_differ.
Qed.

Lemma primary_not_secondary : op_path env Primary ≠ op_path env Secondary.
Proof.
  unfold op_path, DASH_BOOTSTRAP_DIR, slash.
  rewrite !append_assoc. by apply paths_differ.
Qed.

Lemma secondary_not_fixture : op_path env Secondary ≠ fixture_path env.
Proof.
  unfold fixture_path, op_path, slash.
  rewrite !append_assoc. by apply paths_differ.
Qed.

(** The source-control commands that end [postrelease]. *)
Lemma postrelease_commands_only_log (version : string) :
  only_logs
    (run env ("git checkout -b postrelease-" +:+ version);;
     run env ("git add package.json package-lock.json "
              +:+ "dash_bootstrap_components/_version.py");;
     run env ("git commit -m " +:+ dquote +:+ "Back to dev" +:+ dquote);;
     run env ("git push origin postrelease-" +:+ version)).
Proof.
  repeat (apply only_logs_bind; [apply only_logs_run | intros _]).
  apply only_logs_run.
Qed.

End MoreFacts.

Create HintDb paths.
#[export] Hint Resolve primary_not_fixture primary_not_secondary secondary_not_fixture
  not_eq_sym : paths.

Lemma try_finally_chdir {A} (body : M A) (path : string) (w : World) :
  cwd (snd (try_finally body (chdir path) w)) = path ∧
  fst (try_finally body (chdir path) w) = fst (body w).
Proof. unfold try_finally. by destruct (body w) as [r w1]. Qed.

(** ** The script on the sample installation *)

Example parse_plain :
  semver.parse_version_info "1.2.0" =
  Some {| semver.major := 1; semver.minor := 2; semver.patch := 0;
          semver.prerelease := None; semver.build := None |}.
Proof. reflexivity. Qed.

Example parse_tagged :
  semver.str <$> semver.parse_version_info "1.3.0-rc1+b-5.x" = Some "1.3.0-rc1+b-5.x".
Proof. reflexivity. Qed.

Example parse_leading_zero : semver.parse_version_info "1.02.0" = None.
Proof. reflexivity. Qed.

Example parse_two_parts : semver.parse_version_info "1.2" = None.
Proof. reflexivity. Qed.

Example bump_patch_120 : semver.bump_patch "1.2.0" = Some "1.2.1".
Proof. reflexivity. Qed.

Example bump_patch_drops_tags : semver.bump_patch "1.2.9-rc1+b" = Some "1.2.10".
Proof. reflexivity. Qed.

Example readlines_keeps_newlines :
  Py.readlines ("a" +:+ nl +:+ "b" +:+ nl +:+ nl +:+ "c")
  = ["a" +:+ nl; "b" +:+ nl; nl; "c"].
Proof. reflexivity. Qed.

Example isspace_examples :
  Py.isspace nl = true /\ Py.isspace "" = false /\ Py.isspace "  x" = false.
Proof. repeat split. Qed.

Example postrelease_sample_package_json :
  files (snd (postrelease sample_env "1.2.0" sample_world)) !! "/repo/package.json"
  = Some ("{" +:+ nl
          +:+ "  " +:+ dquote +:+ "name" +:+ dquote +:+ ": " +:+ dquote +:+ "dbc" +:+ dquote +:+ "," +:+ nl
          +:+ js_line "1.2.1-dev"
          +:+ "}").
Proof. reflexivity. Qed.

Example postrelease_sample_init :
  files (snd (postrelease sample_env "1.2.0" sample_world))
    !! "/repo/dash_bootstrap_components/__init__.py"
  = Some ("from . import _components" +:+ nl
          +:+ "__version__ = " +:+ dquote +:+ "1.2.1-dev" +:+ dquote +:+ nl
          +:+ "  # trailing  " +:+ nl).
Proof. reflexivity. Qed.

Example release_sample_commands :
  commands (trace (snd (release sample_env "1.2.0" sample_world)))
  = [Invoke "rm -rf dash_bootstrap_components/_components";
     Invoke "rm -rf dist/";
     Invoke "rm -rf lib/";
     Invoke "npm install";
     Invoke "npm publish";
     Invoke "rm -f dist/*";
     Invoke "python setup.py sdist";
     Invoke "twine upload dist/*";
     Invoke "git checkout -b release-1.2.0";
     Invoke ("git add package.json package-lock.json docs/requirements.txt "
             +:+ "dash_bootstrap_components/_version.py");
     Invoke ("git commit -m " +:+ dquote +:+ "Bump version to 1.2.0" +:+ dquote);
     Invoke ("git tag -a " +:+ dquote +:+ "1.2.0" +:+ dquote +:+ " -F changelog.tmp");
     Invoke "git push origin release-1.2.0 --tags"].
Proof. reflexivity. Qed.

Example postrelease_task_sample :
  fst (postrelease_task sample_env "1.2.0" sample_world) = Ret tt /\
  files (snd (postrelease_task sample_env "1.2.0" sample_world))
  = files (snd (postrelease sample_env "1.2.0" sample_world)).
Proof. split; reflexivity. Qed.

Example prerelease_npm_failure :
  fst (prerelease npm_fails_env "1.3.0-rc1" sample_world) = Raise (SystemExit (Some 3%Z)).
Proof. reflexivity. Qed.

(** ** The specification *)

(** On the text of the files: for a text with exactly one line that carries
    the marker of the operation (a line starting with [__version__ = ] for
    [set_pyversion], a line containing the quoted key [version] for
    [set_jsversion], a line containing [dash_bootstrap_components] for
    [set_documentation_version]), the operation succeeds and the lines of the
    text it leaves are the lines it found, except that the marked line is
    the rendered line with the normalized version. *)
Theorem metadata_write_changes_only_marked_line
    (env : Environment) (op : metadata_op) (version content : string)
    (v : semver.VersionInfo) (i : nat) (w : World) :
  semver.parse_version_info version = Some v →
  files w !! op_path env op = Some content →
  only_match (op_marker op) (Py.readlines content) i →
  ∃ w' content',
    op_run env op version w = (Ret tt, w') ∧
    files w' !! op_path env op = Some content' ∧
    differs_only_at i (op_render op (semver.str v))
      (Py.readlines content) (Py.readlines content').
Proof.
  intros Hv Hf Hi.
  destruct (op_run_outcome env op version content v i w Hv Hf Hi) as (w' & Hrun & Hw').
  exists w', (Py.join (<[i := op_render op version]> (Py.readlines content))).
  split; [done |]. split; [done |].
  rewrite (parse_str _ _ Hv), readlines_join.
  - apply differs_only_at_insert.
    destruct Hi as [(l & Hl & _) _]. by eapply lookup_lt_Some.
  - apply lines_ok_insert; [apply readlines_ok |].
    apply op_render_closed. by eapply parse_no_newline.
Qed.

(** On the sample files: only line 1 of [__init__.py], line 2 of
    [package.json] and line 1 of [requirements.txt] change. *)
Lemma metadata_write_witness :
  (∃ w' content',
     op_run sample_env Primary "1.2.0" sample_world = (Ret tt, w') ∧
     files w' !! op_path sample_env Primary = Some content' ∧
     differs_only_at 1 (op_render Primary "1.2.0")
       (Py.readlines sample_init) (Py.readlines content')) ∧
  (∃ w' content',
     op_run sample_env Secondary "1.2.0" sample_world = (Ret tt, w') ∧
     files w' !! op_path sample_env Secondary = Some content' ∧
     differs_only_at 2 (op_render Secondary "1.2.0")
       (Py.readlines sample_package_json) (Py.readlines content')) ∧
  (∃ w' content',
     op_run sample_env DocsPin "1.2.0" sample_world = (Ret tt, w') ∧
     files w' !! op_path sample_env DocsPin = Some content' ∧
     differs_only_at 1 (op_render DocsPin "1.2.0")
       (Py.readlines sample_requirements) (Py.readlines content')).
Proof.
  repeat split.
  - apply (metadata_write_changes_only_marked_line sample_env Primary "1.2.0"
             sample_init
             {| semver.major := 1; semver.minor := 2; semver.patch := 0;
                semver.prerelease := None; semver.build := None |} 1 sample_world);
      [reflexivity | reflexivity | split].
    + eexists. split; reflexivity.
    + intros j l. destruct j as [|[|[|j]]]; cbn; intros [= <-]; try done;
        vm_compute; discriminate.
  - apply (metadata_write_changes_only_marked_line sample_env Secondary "1.2.0"
             sample_package_json
             {| semver.major := 1; semver.minor := 2; semver.patch := 0;
                semver.prerelease := None; semver.build := None |} 2 sample_world);
      [reflexivity | reflexivity | split].
    + eexists. split; reflexivity.
    + intros j l. destruct j as [|[|[|[|j]]]]; cbn; intros [= <-]; try done;
        vm_compute; discriminate.
  - apply (metadata_write_changes_only_marked_line sample_env DocsPin "1.2.0"
             sample_requirements
             {| semver.major := 1; semver.minor := 2; semver.patch := 0;
                semver.prerelease := None; semver.build := None |} 1 sample_world);
      [reflexivity | reflexivity | split].
    + eexists. split; reflexivity.
    + intros j l. destruct j as [|[|[|j]]]; cbn; intros [= <-]; try done;
        vm_compute; discriminate.
Defined.

(** C2 as stated fails: started from [/home/user], [build_js] ends in
    [/repo] even though every command succeeds. *)
Lemma build_js_original_directory_counterexample :
  cwd (snd (build_js sample_env bare_world)) ≠ cwd bare_world.
Proof. vm_compute. discriminate. Qed.

(** C2, amended: whatever the npm commands answer, [build_js] ends with the
    working directory set to [HERE], the directory of the script; the
    directory it was started from is current again exactly when that
    directory was [HERE]. *)
Theorem build_js_ends_in_HERE (env : Environment) (w : World) :
  cwd (snd (build_js env w)) = HERE env ∧
  (cwd (snd (build_js env w)) = cwd w ↔ cwd w = HERE env).
Proof.
  assert (cwd (snd (build_js env w)) = HERE env) as H.
  { unfold build_js.
    rewrite (bind_ret (chdir (JS_DIR env)) _ w (snd (chdir (JS_DIR env) w)) tt eq_refl).
    apply try_finally_chdir. }
  split; [done |]. rewrite H. split; congruence.
Qed.

(** C2 amended, with [npm publish] failing and a start outside [HERE]. *)
Lemma build_js_ends_in_HERE_witness :
  cwd (snd (build_js npm_fails_env bare_world)) = "/repo" ∧
  (cwd (snd (build_js npm_fails_env bare_world)) = cwd bare_world ↔ cwd bare_world = "/repo").
Proof. apply (build_js_ends_in_HERE npm_fails_env bare_world). Defined.

(** C3: on a version string that is not a semantic version,
    [normalize_version] raises the parser's error and so does every
    metadata-writing operation, each of them leaving the world as it was: no
    file is written and the content of every file is unchanged. *)
Theorem malformed_version_writes_nothing
    (env : Environment) (version : string) (w : World) :
  semver.parse_version_info version = None →
  normalize_version version w = (Raise ValueError, w) ∧
  ∀ op, op_run env op version w = (Raise ValueError, w).
Proof.
  intros Hv. split; [by apply normalize_invalid |].
  intros op. by apply op_run_invalid.
Qed.

(** C3 on the string [1.2]. *)
Lemma malformed_version_witness :
  normalize_version "1.2" sample_world = (Raise ValueError, sample_world) ∧
  ∀ op, op_run sample_env op "1.2" sample_world = (Raise ValueError, sample_world).
Proof.
  apply (malformed_version_writes_nothing sample_env "1.2" sample_world).
  reflexivity.
Defined.

(** C4: when the normalized version does not occur in the concatenation of
    the saved lines that do not start with [#], [get_release_notes] returns
    [None]. *)
Theorem release_notes_without_version_are_none
    (env : Environment) (version saved : string) (v : semver.VersionInfo) (w : World) :
  semver.parse_version_info version = Some v →
  edited env (default "vim" (EDITOR env)) (notes_template (semver.str v)) = Some saved →
  Py.contains (semver.str v)
    (Py.join (List.filter not_comment (Py.readlines saved))) = false →
  fst (get_release_notes env version w) = Ret None.
Proof.
  intros Hv. rewrite (parse_str _ _ Hv). intros Hsaved Habsent.
  rewrite (get_release_notes_outcome env version saved v w Hv Hsaved).
  cbn [fst]. by rewrite Habsent.
Qed.

(** C4 when the user leaves only a comment line. *)
Lemma release_notes_without_version_witness :
  fst (get_release_notes cancel_env "1.2.0" sample_world) = Ret None.
Proof.
  apply (release_notes_without_version_are_none cancel_env "1.2.0"
           ("# Write the release notes here" +:+ nl)
           {| semver.major := 1; semver.minor := 2; semver.patch := 0;
              semver.prerelease := None; semver.build := None |} sample_world);
    reflexivity.
Defined.

(** C5: when the normalized version occurs in the concatenation of the saved
    lines that do not start with [#], [get_release_notes] returns lines of
    which none starts with [#] and the last is whitespace only; they are the
    kept lines, with a blank line added when the last kept line is not
    whitespace only. *)
Theorem release_notes_with_version_are_clean
    (env : Environment) (version saved : string) (v : semver.VersionInfo) (w : World) :
  semver.parse_version_info version = Some v →
  edited env (default "vim" (EDITOR env)) (notes_template (semver.str v)) = Some saved →
  Py.contains (semver.str v)
    (Py.join (List.filter not_comment (Py.readlines saved))) = true →
  ∃ notes final,
    fst (get_release_notes env version w) = Ret (Some notes) ∧
    Forall (λ line, Py.startswith line "#" = false) notes ∧
    last notes = Some final ∧ Py.isspace final = true ∧
    ∃ kept_final,
      last (List.filter not_comment (Py.readlines saved)) = Some kept_final ∧
      notes = if Py.isspace kept_final
              then List.filter not_comment (Py.readlines saved)
              else List.filter not_comment (Py.readlines saved) ++ [nl].
Proof.
  intros Hv. rewrite (parse_str _ _ Hv). intros Hsaved Hpresent.
  rewrite (get_release_notes_outcome env version saved v w Hv Hsaved).
  cbn [fst]. rewrite Hpresent.
  set (kept := List.filter not_comment (Py.readlines saved)) in *.
  assert (Forall (λ line, Py.startswith line "#" = false) kept) as Hkept.
  { apply List.Forall_forall. intros line [_ Hline]%List.filter_In.
    unfold not_comment in Hline. by apply negb_true_iff in Hline. }
  destruct (last kept) as [kept_final|] eqn:Hlast.
  - destruct (Py.isspace kept_final) eqn:Hspace.
    + exists kept, kept_final. repeat split; try done.
      exists kept_final. by rewrite Hspace.
    + exists (kept ++ [nl]), nl. repeat split; try done.
      * apply Forall_app. split; [done |]. by constructor.
      * apply last_snoc.
      * exists kept_final. by rewrite Hspace.
  - exfalso. apply last_None in Hlast.
    by apply (join_nil_inv kept version (parse_nonempty _ _ Hv)).
Qed.

(** C5 when the user adds a line of notes under the heading. *)
Lemma release_notes_with_version_witness :
  ∃ notes final,
    fst (get_release_notes sample_env "1.2.0" sample_world) = Ret (Some notes) ∧
    Forall (λ line, Py.startswith line "#" = false) notes ∧
    last notes = Some final ∧ Py.isspace final = true ∧
    ∃ kept_final,
      last (List.filter not_comment
              (Py.readlines (notes_template "1.2.0" +:+ "- New components" +:+ nl)))
      = Some kept_final ∧
      notes = if Py.isspace kept_final
              then List.filter not_comment
                     (Py.readlines (notes_template "1.2.0" +:+ "- New components" +:+ nl))
              else List.filter not_comment
                     (Py.readlines (notes_template "1.2.0" +:+ "- New components" +:+ nl))
                   ++ [nl].
Proof.
  apply (release_notes_with_version_are_clean sample_env "1.2.0"
           (notes_template "1.2.0" +:+ "- New components" +:+ nl)
           {| semver.major := 1; semver.minor := 2; semver.patch := 0;
              semver.prerelease := None; semver.build := None |} sample_world);
    reflexivity.
Defined.

(** C6: a command that exits with 0 makes [run] return with nothing added to
    the console; a command that exits with [N] other than 0 makes [run] print
    the error label, the captured output, an empty line and the captured
    error output, in this order, and raise [SystemExit(N)], which ends the
    process with status [N]. *)
Theorem run_reports_failure_and_exits
    (env : Environment) (command : string) (w : World) :
  let result := shell env command w in
  (exited result = 0%Z →
     ∃ w', run env command w = (Ret tt, w') ∧
           console (trace w') = console (trace w)) ∧
  (exited result ≠ 0%Z →
     ∃ w', run env command w = (Raise (SystemExit (Some (exited result))), w') ∧
           console (trace w') =
             console (trace w) ++
             [CPrint ("Error running " +:+ command) "red";
              Print (stdout result); Print ""; Print (stderr result)] ∧
           exit_status (SystemExit (Some (exited result))) = exited result).
Proof.
  intros result. pose proof (run_outcome env command w) as H.
  cbn zeta in H. fold result in H. unfold run_events in H. split.
  - intros Hz. rewrite Hz in H. eexists. split; [exact H |].
    unfold console. cbn [log trace]. rewrite List.filter_app. cbn.
    by rewrite app_nil_r.
  - intros Hnz. apply Z.eqb_neq in Hnz. rewrite Hnz in H.
    eexists. split; [exact H |]. split; [| done].
    unfold console. cbn [log trace]. by rewrite List.filter_app.
Qed.

(** C6 for a command that succeeds and for one that exits with 3. *)
Lemma run_witness :
  (exited (shell sample_env "npm install" sample_world) = 0%Z ∧
   ∃ w', run sample_env "npm install" sample_world = (Ret tt, w') ∧
         console (trace w') = console (trace sample_world)) ∧
  (exited (shell npm_fails_env "npm publish" sample_world) ≠ 0%Z ∧
   ∃ w', run npm_fails_env "npm publish" sample_world
         = (Raise (SystemExit (Some 3%Z)), w') ∧
         console (trace w') =
           console (trace sample_world) ++
           [CPrint "Error running npm publish" "red";
            Print "some output"; Print ""; Print "some error"] ∧
         exit_status (SystemExit (Some 3%Z)) = 3%Z).
Proof.
  split.
  - split; [reflexivity |].
    apply (proj1 (run_reports_failure_and_exits sample_env "npm install" sample_world)).
    reflexivity.
  - split; [discriminate |].
    apply (proj2 (run_reports_failure_and_exits npm_fails_env "npm publish" sample_world)).
    discriminate.
Defined.

(** C7: normalizing a valid version gives its canonical rendering, and
    normalizing that rendering again gives the same string. *)
Theorem normalize_version_idempotent
    (version : string) (v : semver.VersionInfo) (w : World) :
  semver.parse_version_info version = Some v →
  ∃ normalized,
    normalized = semver.str v ∧
    normalize_version version w = (Ret normalized, w) ∧
    normalize_version normalized w = (Ret normalized, w).
Proof.
  intros Hv. exists version. rewrite (parse_str _ _ Hv).
  split; [done |]. split; by apply (normalize_valid version v).
Qed.

(** C7 on a version with both tags. *)
Lemma normalize_version_idempotent_witness :
  ∃ normalized,
    normalized = "1.3.0-rc1+build.5" ∧
    normalize_version "1.3.0-rc1+build.5" sample_world = (Ret normalized, sample_world) ∧
    normalize_version normalized sample_world = (Ret normalized, sample_world).
Proof.
  apply (normalize_version_idempotent "1.3.0-rc1+build.5"
           {| semver.major := 1; semver.minor := 3; semver.patch := 0;
              semver.prerelease := Some "rc1"; semver.build := Some "build.5" |}
           sample_world).
  reflexivity.
Defined.

(** C8: for a valid version, [postrelease] leaves in [__init__.py] and in
    [package.json] (and in the generated test) the string
    [bump_patch(version) + "-dev"], whatever the source-control commands
    that follow answer. *)
Theorem postrelease_writes_next_dev_version
    (env : Environment) (version bumped init_content package_content : string)
    (i : nat) (w : World) :
  semver.bump_patch version = Some bumped →
  files w !! op_path env Primary = Some init_content →
  Py.index_true (op_marker Primary) (Py.readlines init_content) = Some i →
  files w !! op_path env Secondary = Some package_content →
  let new_version := bumped +:+ "-dev" in
  let after := files (snd (postrelease env version w)) in
  after !! op_path env Primary =
    Some (Py.join (<[i := VERSION_TEMPLATE new_version]> (Py.readlines init_content))) ∧
  after !! op_path env Secondary =
    Some (Py.join (replace_if (op_marker Secondary) (js_line new_version)
                     <$> Py.readlines package_content)) ∧
  after !! fixture_path env = Some (TEST_VERSION_TEMPLATE new_version).
Proof.
  intros Hbump Hinit Hi Hpackage new_version after.
  destruct (parse_bump_dev version bumped Hbump) as [v Hv]. fold new_version in Hv.
  assert (∃ w1, snd (postrelease env version w) = w1 ∧
                files w1 = <[op_path env Secondary :=
                               Py.join (replace_if (op_marker Secondary) (js_line new_version)
                                          <$> Py.readlines package_content)]>
                           (<[fixture_path env := TEST_VERSION_TEMPLATE new_version]>
                           (<[op_path env Primary :=
                                Py.join (<[i := VERSION_TEMPLATE new_version]>
                                           (Py.readlines init_content))]> (files w))))
    as (w1 & Hw1 & Hfiles).
  { eexists. split; [reflexivity |]. unfold postrelease. rewrite Hbump.
    rewrite (bind_ret (mret bumped) _ w w bumped eq_refl). fold new_version.
    rewrite (bind_ret (info _) _ w _ tt eq_refl).
    erewrite (bind_ret (set_pyversion env new_version));
      [| by apply (set_pyversion_outcome env new_version init_content v i)].
    erewrite (bind_ret (set_jsversion env new_version));
      [| apply (set_jsversion_outcome env new_version package_content v); [done |]].
    - rewrite only_logs_files by apply postrelease_commands_only_log. done.
    - cbn [written files]. by rewrite !lookup_insert_ne by auto with paths. }
  unfold after. rewrite Hw1, Hfiles. repeat split.
  - by rewrite !lookup_insert_ne, lookup_insert_eq by auto with paths.
  - by rewrite lookup_insert_eq.
  - by rewrite lookup_insert_ne, lookup_insert_eq by auto with paths.
Qed.

(** C8 for version 1.2.0: both files show 1.2.1-dev. *)
Lemma postrelease_witness :
  let after := files (snd (postrelease sample_env "1.2.0" sample_world)) in
  after !! op_path sample_env Primary =
    Some (Py.join (<[1 := VERSION_TEMPLATE "1.2.1-dev"]> (Py.readlines sample_init))) ∧
  after !! op_path sample_env Secondary =
    Some (Py.join (replace_if (op_marker Secondary) (js_line "1.2.1-dev")
                     <$> Py.readlines sample_package_json)) ∧
  after !! fixture_path sample_env = Some (TEST_VERSION_TEMPLATE "1.2.1-dev").
Proof.
  apply (postrelease_writes_next_dev_version sample_env "1.2.0" "1.2.1"
           sample_init sample_package_json 1 sample_world); reflexivity.
Defined.

(** On the text of the files: when no line of the text carries the marker,
    the text of every file is the same after the operation; [set_pyversion]
    raises before it writes anything, and [set_jsversion] and
    [set_documentation_version] write back the text they read. *)
Theorem no_marker_leaves_file_unchanged
    (env : Environment) (op : metadata_op) (version content : string) (w : World) :
  files w !! op_path env op = Some content →
  (∀ line, line ∈ Py.readlines content → op_marker op line = false) →
  files (snd (op_run env op version w)) = files w ∧
  (op = Primary → op_run env op version w = (Raise ValueError, w)) ∧
  (op ≠ Primary → ∀ v, semver.parse_version_info version = Some v →
     op_run env op version w = (Ret tt, written w (op_path env op) content)).
Proof.
  intros Hf Hnone.
  assert (op ≠ Primary → ∀ v, semver.parse_version_info version = Some v →
          op_run env op version w = (Ret tt, written w (op_path env op) content)) as Hsame.
  { intros Hop v Hv. destruct op; [done | |]; cbn [op_run].
    - rewrite (set_jsversion_outcome env version content v w Hv Hf).
      by rewrite replace_none, join_readlines.
    - rewrite (set_documentation_version_outcome env version content v w Hv Hf).
      by rewrite replace_none, join_readlines. }
  assert (op = Primary → op_run env op version w = (Raise ValueError, w)) as Hraise.
  { intros ->. apply (set_pyversion_no_marker env version content w Hf).
    by apply index_true_None. }
  split; [| by split].
  destruct (semver.parse_version_info version) as [v|] eqn:Hv.
  - destruct op; [by rewrite (Hraise eq_refl) | |];
      (rewrite (Hsame ltac:(done) v eq_refl); cbn [snd written files];
       by apply insert_id).
  - by rewrite (op_run_invalid env op version w Hv).
Qed.

(** On texts without a version line. *)
Lemma no_marker_witness :
  (files (snd (op_run sample_env Secondary "1.2.0" bare_world)) = files bare_world ∧
   (Secondary = Primary →
      op_run sample_env Secondary "1.2.0" bare_world = (Raise ValueError, bare_world)) ∧
   (Secondary ≠ Primary → ∀ v, semver.parse_version_info "1.2.0" = Some v →
      op_run sample_env Secondary "1.2.0" bare_world
      = (Ret tt, written bare_world (op_path sample_env Secondary) ("{}" +:+ nl)))) ∧
  op_run sample_env Primary "1.2.0" bare_world = (Raise ValueError, bare_world).
Proof.
  split.
  - apply (no_marker_leaves_file_unchanged sample_env Secondary "1.2.0"
             ("{}" +:+ nl) bare_world).
    + reflexivity.
    + intros line Hline. apply list_elem_of_In in Hline.
      destruct Hline as [<- | []]. reflexivity.
  - apply (no_marker_leaves_file_unchanged sample_env Primary "1.2.0"
             ("import os" +:+ nl) bare_world).
    + reflexivity.
    + intros line Hline. apply list_elem_of_In in Hline.
      destruct Hline as [<- | []]. reflexivity.
    + reflexivity.
Defined.

(** C10: when the tools are installed, the version is valid, the pin file
    exists and the saved notes do not contain the version, [release] reports
    the error in red and raises the [SystemExit] of a bare [exit()], status
    0; the error is the last event, and no subordinate command was issued. *)
Theorem release_without_notes_exits_zero
    (env : Environment) (version requirements saved : string)
    (v : semver.VersionInfo) (w : World) :
  (∀ executable, executable ∈ ["twine"; "npm"; "dash-generate-components"] →
     is_Some (which env executable)) →
  semver.parse_version_info version = Some v →
  files w !! op_path env DocsPin = Some requirements →
  edited env (default "vim" (EDITOR env)) (notes_template (semver.str v)) = Some saved →
  Py.contains (semver.str v)
    (Py.join (List.filter not_comment (Py.readlines saved))) = false →
  ∃ w',
    release env version w = (Raise (SystemExit None), w') ∧
    exit_status (SystemExit None) = 0%Z ∧
    trace w' =
      trace w ++
      [Print ("Releasing version " +:+ version +:+ " as full release");
       Write (op_path env DocsPin)
         (Py.join (replace_if (op_marker DocsPin) (docs_line (semver.str v))
                     <$> Py.readlines requirements));
       Edit (default "vim" (EDITOR env)) (notes_template (semver.str v));
       CPrint "No release notes: exiting" "red"] ∧
    commands (trace w') = commands (trace w).
Proof.
  intros Hwhich Hv. rewrite (parse_str _ _ Hv). intros Hreq Hsaved Habsent.
  eexists. split; [| split; [done |]].
  - unfold release.
    rewrite (bind_ret _ _ _ _ _ (check_prerequisites_found env w Hwhich)).
    rewrite (bind_ret (info _) _ w _ tt eq_refl).
    erewrite (bind_ret (set_documentation_version env version));
      [| by apply (set_documentation_version_outcome env version requirements v)].
    erewrite (bind_ret (get_release_notes env version));
      [| rewrite (get_release_notes_outcome env version saved v _ Hv Hsaved);
         cbn zeta; rewrite Habsent; reflexivity].
    reflexivity.
  - cbn [snd trace log written]. rewrite <- !app_assoc. split; [done |].
    unfold commands. rewrite List.filter_app. cbn. by rewrite app_nil_r.
Qed.

(** C10 when the user deletes the heading. *)
Lemma release_without_notes_witness :
  ∃ w',
    release cancel_env "1.2.0" sample_world = (Raise (SystemExit None), w') ∧
    exit_status (SystemExit None) = 0%Z ∧
    trace w' =
      trace sample_world ++
      [Print "Releasing version 1.2.0 as full release";
       Write "/repo/docs/requirements.txt"
         (Py.join (replace_if (op_marker DocsPin) (docs_line "1.2.0")
                     <$> Py.readlines sample_requirements));
       Edit "nano" (notes_template "1.2.0");
       CPrint "No release notes: exiting" "red"] ∧
    commands (trace w') = commands (trace sample_world).
Proof.
  apply (release_without_notes_exits_zero cancel_env "1.2.0" sample_requirements
           ("# Write the release notes here" +:+ nl)
           {| semver.major := 1; semver.minor := 2; semver.patch := 0;
              semver.prerelease := None; semver.build := None |} sample_world);
    try reflexivity.
  intros executable _. by eexists.
Defined.

(** ** Further properties of the script *)

Section ToolFacts.
Variable env : Environment.

(** The loop of [check_prerequisites] over any list of tools. *)
Lemma prerequisites_loop_missing (found rest : list string) (executable : string) (w : World) :
  (∀ e, e ∈ found → is_Some (which env e)) →
  which env executable = None →
  for_each (found ++ executable :: rest) (λ executable,
    match which env executable with
    | None =>
        error (executable +:+ " executable not found. "
               +:+ "You must have " +:+ executable +:+ " to release "
               +:+ "dash-bootstrap-components.");;
        exit (Some 127%Z)
    | Some _ => mret tt
    end) w
  = (Raise (SystemExit (Some 127%Z)), log w [CPrint (not_found_message executable) "red"]).
Proof.
  intros Hfound Hmissing. induction found as [|e found IH].
  - cbn [app for_each]. unfold mbind, M_bind. by rewrite Hmissing.
  - cbn [app for_each]. unfold mbind at 1, M_bind at 1.
    destruct (Hfound e) as [? ->]; [apply list_elem_of_here |].
    cbn. apply IH. intros e' He'. apply Hfound. by apply list_elem_of_further.
Qed.

Lemma info_outcome (text : string) (w : World) :
  info text w = (Ret tt, log w [Print text]).
Proof. reflexivity. Qed.

Lemma error_outcome (text : string) (w : World) :
  error text w = (Ret tt, log w [CPrint text "red"]).
Proof. reflexivity. Qed.

Lemma run_succeeds (command : string) (w : World) :
  exited (shell env command w) = 0%Z →
  run env command w = (Ret tt, log w [Invoke command]).
Proof.
  intros H. pose proof (run_outcome env command w) as Hrun. cbn zeta in Hrun.
  unfold run_events in Hrun. by rewrite H in Hrun.
Qed.

Lemma run_fails (command : string) (w : World) :
  exited (shell env command w) ≠ 0%Z →
  run env command w =
  (Raise (SystemExit (Some (exited (shell env command w)))),
   log w [Invoke command; CPrint ("Error running " +:+ command) "red";
          Print (stdout (shell env command w)); Print "";
          Print (stderr (shell env command w))]).
Proof.
  intros H. pose proof (run_outcome env command w) as Hrun. cbn zeta in Hrun.
  unfold run_events in Hrun. apply Z.eqb_neq in H. by rewrite H in Hrun.
Qed.

Lemma clean_succeeds (w : World) :
  (∀ command w', exited (shell env command w') = 0%Z) →
  clean env w =
  (Ret tt, log w [Invoke "rm -rf dash_bootstrap_components/_components";
                  Invoke "rm -rf dist/"; Invoke "rm -rf lib/"]).
Proof.
  intros Hshell. unfold clean. cbn [for_each].
  rewrite (bind_ret _ _ _ _ _ (run_succeeds _ _ (Hshell _ _))).
  rewrite (bind_ret _ _ _ _ _ (run_succeeds _ _ (Hshell _ _))).
  rewrite (bind_ret _ _ _ _ _ (run_succeeds _ _ (Hshell _ _))).
  cbn. by rewrite !log_log.
Qed.

End ToolFacts.

(** X1: when a required tool is missing, [check_prerequisites] prints, in
    red, the message that names the first missing tool (in the order twine,
    npm, dash-generate-components) and exits with status 127; nothing else
    happens. *)
Theorem check_prerequisites_first_missing
    (env : Environment) (found rest : list string) (executable : string) (w : World) :
  ["twine"; "npm"; "dash-generate-components"] = found ++ executable :: rest →
  (∀ e, e ∈ found → is_Some (which env e)) →
  which env executable = None →
  check_prerequisites env w =
  (Raise (SystemExit (Some 127%Z)), log w [CPrint (not_found_message executable) "red"]) ∧
  exit_status (SystemExit (Some 127%Z)) = 127%Z.
Proof.
  intros Hlist Hfound Hmissing. split; [| done].
  unfold check_prerequisites. rewrite Hlist.
  by apply prerequisites_loop_missing.
Qed.

(** X1 when [npm] is missing. *)
Lemma check_prerequisites_first_missing_witness :
  check_prerequisites no_npm_env sample_world =
  (Raise (SystemExit (Some 127%Z)),
   log sample_world [CPrint (not_found_message "npm") "red"]) ∧
  exit_status (SystemExit (Some 127%Z)) = 127%Z.
Proof.
  apply (check_prerequisites_first_missing no_npm_env ["twine"]
           ["dash-generate-components"] "npm" sample_world).
  - reflexivity.
  - intros e He. apply list_elem_of_In in He. destruct He as [<- | []]. by eexists.
  - reflexivity.
Defined.

(** X2: with a tool missing, [prerelease] and [release] end as
    [check_prerequisites] does: exit status 127 after the one error line, no
    file written, no command issued, no banner printed. *)
Theorem missing_tool_stops_release_tasks
    (env : Environment) (found rest : list string) (executable version : string)
    (w : World) :
  ["twine"; "npm"; "dash-generate-components"] = found ++ executable :: rest →
  (∀ e, e ∈ found → is_Some (which env e)) →
  which env executable = None →
  prerelease env version w =
    (Raise (SystemExit (Some 127%Z)), log w [CPrint (not_found_message executable) "red"]) ∧
  release env version w =
    (Raise (SystemExit (Some 127%Z)), log w [CPrint (not_found_message executable) "red"]).
Proof.
  intros Hlist Hfound Hmissing.
  assert (check_prerequisites env w =
          (Raise (SystemExit (Some 127%Z)),
           log w [CPrint (not_found_message executable) "red"])) as H.
  { unfold check_prerequisites. rewrite Hlist. by apply prerequisites_loop_missing. }
  split; unfold prerelease, release; by rewrite (bind_raise _ _ _ _ _ H).
Qed.

(** X2 when [npm] is missing. *)
Lemma missing_tool_witness :
  prerelease no_npm_env "1.2.0" sample_world =
    (Raise (SystemExit (Some 127%Z)),
     log sample_world [CPrint (not_found_message "npm") "red"]) ∧
  release no_npm_env "1.2.0" sample_world =
    (Raise (SystemExit (Some 127%Z)),
     log sample_world [CPrint (not_found_message "npm") "red"]).
Proof.
  apply (missing_tool_stops_release_tasks no_npm_env ["twine"]
           ["dash-generate-components"] "npm" "1.2.0" sample_world).
  - reflexivity.
  - intros e He. apply list_elem_of_In in He. destruct He as [<- | []]. by eexists.
  - reflexivity.
Defined.

(** X3: with the tools installed and a version that is not a semantic
    version, [release] fails with the parser's error right after its banner
    (no file written, the editor not opened, no command issued), and
    [postrelease] fails before it prints or writes anything. *)
Theorem malformed_version_stops_release_and_postrelease
    (env : Environment) (version : string) (w : World) :
  (∀ executable, executable ∈ ["twine"; "npm"; "dash-generate-components"] →
     is_Some (which env executable)) →
  semver.parse_version_info version = None →
  release env version w =
    (Raise ValueError,
     log w [Print ("Releasing version " +:+ version +:+ " as full release")]) ∧
  postrelease env version w = (Raise ValueError, w).
Proof.
  intros Hwhich Hv. split.
  - unfold release.
    rewrite (bind_ret _ _ _ _ _ (check_prerequisites_found env w Hwhich)).
    rewrite (bind_ret (info _) _ w _ tt eq_refl).
    by rewrite (bind_raise _ _ _ _ _
                  (op_run_invalid env DocsPin version _ Hv)).
  - unfold postrelease, semver.bump_patch. by rewrite Hv.
Qed.

(** X3 on the string [1.2]. *)
Lemma malformed_version_release_witness :
  release sample_env "1.2" sample_world =
    (Raise ValueError,
     log sample_world [Print ("Releasing version " +:+ "1.2" +:+ " as full release")]) ∧
  postrelease sample_env "1.2" sample_world = (Raise ValueError, sample_world).
Proof.
  apply (malformed_version_stops_release_and_postrelease sample_env "1.2" sample_world).
  - intros executable _. by eexists.
  - reflexivity.
Defined.

(** X4: [prerelease] checks the version only after cleaning: with the
    tools installed and the commands succeeding, a malformed version is
    rejected after the three [rm -rf] commands have run. *)
Theorem prerelease_cleans_before_validating
    (env : Environment) (version : string) (w : World) :
  (∀ executable, executable ∈ ["twine"; "npm"; "dash-generate-components"] →
     is_Some (which env executable)) →
  (∀ command w', exited (shell env command w') = 0%Z) →
  semver.parse_version_info version = None →
  prerelease env version w =
  (Raise ValueError,
   log w [Print ("Releasing version " +:+ version +:+ " as prerelease");
          Print "Cleaning";
          Invoke "rm -rf dash_bootstrap_components/_components";
          Invoke "rm -rf dist/";
          Invoke "rm -rf lib/";
          Print "Updating versions"]).
Proof.
  intros Hwhich Hshell Hv. unfold prerelease.
  rewrite (bind_ret _ _ _ _ _ (check_prerequisites_found env w Hwhich)).
  rewrite (bind_ret _ _ _ _ _ (info_outcome _ _)).
  unfold build_publish.
  rewrite (bind_ret _ _ _ _ _ (info_outcome _ _)).
  rewrite (bind_ret _ _ _ _ _ (clean_succeeds env _ Hshell)).
  rewrite (bind_ret _ _ _ _ _ (info_outcome _ _)).
  rewrite (bind_raise _ _ _ _ _ (op_run_invalid env Primary version _ Hv)).
  by rewrite !log_log.
Qed.

(** X4 on the string [1.2]. *)
Lemma prerelease_cleans_witness :
  prerelease sample_env "1.2" sample_world =
  (Raise ValueError,
   log sample_world
       [Print ("Releasing version " +:+ "1.2" +:+ " as prerelease");
        Print "Cleaning";
        Invoke "rm -rf dash_bootstrap_components/_components";
        Invoke "rm -rf dist/";
        Invoke "rm -rf lib/";
        Print "Updating versions"]).
Proof.
  apply (prerelease_cleans_before_validating sample_env "1.2" sample_world).
  - intros executable _. by eexists.
  - reflexivity.
  - reflexivity.
Defined.

Section RewriteFacts.
Variable env : Environment.

Lemma read_lines_None (path : string) (w : World) :
  files w !! path = None → read_lines path w = (Raise FileNotFoundError, w).
Proof. intros H. unfold read_lines. by rewrite H. Qed.

Lemma op_run_missing_file (op : metadata_op) (version : string)
    (v : semver.VersionInfo) (w : World) :
  semver.parse_version_info version = Some v →
  files w !! op_path env op = None →
  op_run env op version w = (Raise FileNotFoundError, w).
Proof.
  intros Hv Hf. destruct op; cbn [op_run];
    unfold set_pyversion, set_jsversion, set_documentation_version;
    rewrite (bind_ret _ _ _ _ _ (normalize_valid _ _ _ Hv));
    by rewrite (bind_raise _ _ _ _ _ (read_lines_None _ _ Hf)).
Qed.

Lemma op_run_replace_outcome (op : metadata_op) (version content : string)
    (v : semver.VersionInfo) (w : World) :
  op ≠ Primary →
  semver.parse_version_info version = Some v →
  files w !! op_path env op = Some content →
  op_run env op version w =
  (Ret tt, written w (op_path env op)
     (Py.join (replace_if (op_marker op) (op_render op version)
                 <$> Py.readlines content))).
Proof.
  intros Hop Hv Hf. destruct op; [done | |].
  - by apply (set_jsversion_outcome env version content v).
  - by apply (set_documentation_version_outcome env version content v).
Qed.

(** Every way an operation can end, by the file and the version it finds. *)
Lemma op_run_cases (op : metadata_op) (version : string) (w : World) :
  op_run env op version w = (Raise ValueError, w) ∨
  op_run env op version w = (Raise FileNotFoundError, w) ∨
  (∃ content,
     op ≠ Primary ∧ files w !! op_path env op = Some content ∧
     op_run env op version w =
     (Ret tt, written w (op_path env op)
        (Py.join (replace_if (op_marker op) (op_render op version)
                    <$> Py.readlines content)))) ∨
  (∃ content i,
     op = Primary ∧ files w !! op_path env op = Some content ∧
     Py.index_true (op_marker Primary) (Py.readlines content) = Some i ∧
     op_run env op version w =
     (Ret tt,
      written
        (written w (op_path env Primary)
           (Py.join (<[i := VERSION_TEMPLATE version]> (Py.readlines content))))
        (fixture_path env) (TEST_VERSION_TEMPLATE version))).
Proof.
  destruct (semver.parse_version_info version) as [v|] eqn:Hv;
    [| left; by apply op_run_invalid].
  destruct (files w !! op_path env op) as [content|] eqn:Hf;
    [| right; left; by apply (op_run_missing_file op version v)].
  destruct op.
  - destruct (Py.index_true (op_marker Primary) (Py.readlines content)) as [i|] eqn:Hi.
    + right; right; right. exists content, i. repeat split; try done.
      by apply (set_pyversion_outcome env version content v).
    + left. by apply (set_pyversion_no_marker env version content).
  - right; right; left. exists content. repeat split; try done.
    by apply (set_jsversion_outcome env version content v).
  - right; right; left. exists content. repeat split; try done.
    by apply (set_documentation_version_outcome env version content v).
Qed.

Lemma index_true_before {A} (p : A → bool) (xs : list A) (i j : nat) (x : A) :
  Py.index_true p xs = Some i → j < i → xs !! j = Some x → p x = false.
Proof.
  revert i j. induction xs as [|y xs IH]; intros i j; [done |]. simpl.
  destruct (p y) eqn:Ey.
  - intros [= <-] Hj. lia.
  - destruct (Py.index_true p xs) as [k|] eqn:Hk; [|done]. simpl.
    intros [= <-] Hj. destruct j as [|j]; simpl.
    + by intros [= <-].
    + apply (IH k j eq_refl). lia.
Qed.

Lemma index_true_first {A} (p : A → bool) (xs : list A) (i : nat) (x : A) :
  xs !! i = Some x → p x = true →
  (∀ j y, j < i → xs !! j = Some y → p y = false) →
  Py.index_true p xs = Some i.
Proof.
  revert i. induction xs as [|y xs IH]; intros i; [done |]. simpl.
  destruct i as [|i]; simpl.
  - intros [= ->] -> _. done.
  - intros Hx Hp Hbefore. rewrite (Hbefore 0 y) by (done || lia).
    rewrite (IH i Hx Hp); [done |].
    intros j z Hj Hz. apply (Hbefore (S j) z); [lia | done].
Qed.

Lemma index_true_insert (p : string → bool) (xs : list string) (i : nat) (new : string) :
  Py.index_true p xs = Some i → p new = true →
  Py.index_true p (<[i := new]> xs) = Some i.
Proof.
  intros Hi Hnew. destruct (index_true_Some p xs i Hi) as (x & Hx & _).
  apply (index_true_first p _ i new).
  - apply list_lookup_insert_eq. by eapply lookup_lt_Some.
  - done.
  - intros j y Hj Hy. rewrite list_lookup_insert_ne in Hy by lia.
    by apply (index_true_before p xs i j y).
Qed.

Lemma replace_if_twice (p : string → bool) (new : string) (xs : list string) :
  replace_if p new <$> (replace_if p new <$> xs) = replace_if p new <$> xs.
Proof.
  rewrite <- list_fmap_compose. apply list_fmap_ext. intros _ x _.
  unfold compose, replace_if. destruct (p x) eqn:E; [| by rewrite E].
  by destruct (p new).
Qed.

(** Replacing lines by a closed line keeps the lines well formed. *)
Lemma lines_ok_replace (p : string → bool) (new : string) (ls : list string) :
  lines_ok ls = true → line_ok true new = true →
  lines_ok (replace_if p new <$> ls) = true.
Proof.
  intros Hls Hnew. induction ls as [|l ls IH]; [done |].
  rewrite fmap_cons. destruct ls as [|l' ls'].
  - cbn. unfold replace_if. destruct (p l); [by apply line_ok_open | done].
  - rewrite lines_ok_cons in Hls by done. apply andb_prop in Hls as [Hl Hls].
    rewrite lines_ok_cons by done. rewrite (IH Hls), andb_true_r.
    unfold replace_if. by destruct (p l).
Qed.

Lemma written_twice (w : World) (path content : string) :
  files (written (written w path content) path content) = files (written w path content).
Proof. cbn [written files]. apply insert_insert_eq. Qed.

End RewriteFacts.

(** X5: when the file of a metadata operation does not exist, the
    operation raises [FileNotFoundError] and leaves the world as it was; it
    does not create the file. *)
Theorem missing_file_fails_without_writing
    (env : Environment) (op : metadata_op) (version : string)
    (v : semver.VersionInfo) (w : World) :
  semver.parse_version_info version = Some v →
  files w !! op_path env op = None →
  op_run env op version w = (Raise FileNotFoundError, w).
Proof. apply op_run_missing_file. Qed.

(** X5 on an empty file system. *)
Lemma missing_file_witness :
  op_run sample_env Secondary "1.2.0" {| files := ∅; cwd := "/repo"; trace := [] |}
  = (Raise FileNotFoundError, {| files := ∅; cwd := "/repo"; trace := [] |}).
Proof.
  apply (missing_file_fails_without_writing sample_env Secondary "1.2.0"
           {| semver.major := 1; semver.minor := 2; semver.patch := 0;
              semver.prerelease := None; semver.build := None |}); reflexivity.
Defined.

(** X6: a metadata operation, however it ends, leaves every file other
    than its own (and, for [set_pyversion], the generated test) as it was,
    and does not change the working directory. *)
Theorem metadata_write_touches_only_its_files
    (env : Environment) (op : metadata_op) (version path : string) (w : World) :
  path ≠ op_path env op →
  (op = Primary → path ≠ fixture_path env) →
  files (snd (op_run env op version w)) !! path = files w !! path ∧
  cwd (snd (op_run env op version w)) = cwd w.
Proof.
  intros Hpath Hfixture.
  destruct (op_run_cases env op version w)
    as [-> | [-> | [(content & _ & _ & ->) | (content & i & -> & _ & _ & ->)]]];
    try done; cbn [snd written files cwd].
  - by rewrite lookup_insert_ne.
  - specialize (Hfixture eq_refl). by rewrite !lookup_insert_ne by done.
Qed.

(** X6: [set_pyversion] leaves [package.json] alone. *)
Lemma metadata_write_frame_witness :
  files (snd (op_run sample_env Primary "1.2.0" sample_world)) !! "/repo/package.json"
  = files sample_world !! "/repo/package.json" ∧
  cwd (snd (op_run sample_env Primary "1.2.0" sample_world)) = cwd sample_world.
Proof.
  apply (metadata_write_touches_only_its_files sample_env Primary "1.2.0"
           "/repo/package.json" sample_world); intros; discriminate.
Defined.

(** X7: [set_jsversion] and [set_documentation_version] replace every
    line that carries their marker, not only the first: the file keeps its
    number of lines, each marked line becomes the rendered line and each
    other line stays the same string. *)
Theorem every_marked_line_is_replaced
    (env : Environment) (op : metadata_op) (version content : string)
    (v : semver.VersionInfo) (w : World) :
  op ≠ Primary →
  semver.parse_version_info version = Some v →
  files w !! op_path env op = Some content →
  ∃ w' content',
    op_run env op version w = (Ret tt, w') ∧
    files w' !! op_path env op = Some content' ∧
    length (Py.readlines content') = length (Py.readlines content) ∧
    ∀ j line, Py.readlines content !! j = Some line →
      Py.readlines content' !! j =
      Some (if op_marker op line then op_render op (semver.str v) else line).
Proof.
  intros Hop Hv Hf. rewrite (parse_str _ _ Hv).
  eexists _, _. split; [by apply (op_run_replace_outcome env op version content v) |].
  cbn [written files]. rewrite lookup_insert_eq. split; [done |].
  rewrite readlines_join.
  - split; [by rewrite length_fmap |]. intros j line Hline.
    by rewrite list_lookup_fmap, Hline.
  - apply lines_ok_replace; [apply readlines_ok |].
    apply op_render_closed. by eapply parse_no_newline.
Qed.

(** X7 on a [package.json] with two marked lines. *)
Lemma every_marked_line_witness :
  ∃ w' content',
    op_run sample_env Secondary "1.2.0" twin_world = (Ret tt, w') ∧
    files w' !! op_path sample_env Secondary = Some content' ∧
    length (Py.readlines content') = length (Py.readlines twin_package_json) ∧
    ∀ j line, Py.readlines twin_package_json !! j = Some line →
      Py.readlines content' !! j =
      Some (if op_marker Secondary line then op_render Secondary "1.2.0" else line).
Proof.
  apply (every_marked_line_is_replaced sample_env Secondary "1.2.0" twin_package_json
           {| semver.major := 1; semver.minor := 2; semver.patch := 0;
              semver.prerelease := None; semver.build := None |} twin_world);
    [discriminate | reflexivity | reflexivity].
Defined.

(** X8: [set_pyversion] replaces the first line that starts with
    [__version__ = ] and no other, also when later lines start with it, and
    writes the generated test for the same version. *)
Theorem set_pyversion_replaces_first_marked_line
    (env : Environment) (version content marked : string)
    (v : semver.VersionInfo) (i : nat) (w : World) :
  semver.parse_version_info version = Some v →
  files w !! op_path env Primary = Some content →
  Py.readlines content !! i = Some marked →
  op_marker Primary marked = true →
  (∀ j line, j < i → Py.readlines content !! j = Some line →
     op_marker Primary line = false) →
  ∃ w' content',
    set_pyversion env version w = (Ret tt, w') ∧
    files w' !! op_path env Primary = Some content' ∧
    differs_only_at i (VERSION_TEMPLATE (semver.str v))
      (Py.readlines content) (Py.readlines content') ∧
    files w' !! fixture_path env = Some (TEST_VERSION_TEMPLATE (semver.str v)).
Proof.
  intros Hv Hf Hi Hmarked Hbefore. rewrite (parse_str _ _ Hv).
  pose proof (index_true_first _ _ _ _ Hi Hmarked Hbefore) as Hindex.
  eexists _, _. split; [by apply (set_pyversion_outcome env version content v i) |].
  cbn [written files]. split; [| split].
  - rewrite lookup_insert_ne by auto with paths. by rewrite lookup_insert_eq.
  - rewrite readlines_join.
    + apply differs_only_at_insert. by eapply lookup_lt_Some.
    + apply lines_ok_insert; [apply readlines_ok |].
      apply (op_render_closed Primary). by eapply parse_no_newline.
  - by rewrite lookup_insert_eq.
Qed.

(** X8 on an [__init__.py] with two marked lines. *)
Lemma set_pyversion_first_marked_witness :
  ∃ w' content',
    set_pyversion sample_env "1.2.0" twin_world = (Ret tt, w') ∧
    files w' !! op_path sample_env Primary = Some content' ∧
    differs_only_at 0 (VERSION_TEMPLATE "1.2.0")
      (Py.readlines twin_init) (Py.readlines content') ∧
    files w' !! fixture_path sample_env = Some (TEST_VERSION_TEMPLATE "1.2.0").
Proof.
  apply (set_pyversion_replaces_first_marked_line sample_env "1.2.0" twin_init
           ("__version__ = " +:+ dquote +:+ "0.1.0" +:+ dquote +:+ nl)
           {| semver.major := 1; semver.minor := 2; semver.patch := 0;
              semver.prerelease := None; semver.build := None |} 0 twin_world);
    try reflexivity.
  intros j line Hj. lia.
Defined.

(** X9: running a metadata operation a second time with the same version
    ends the same way and leaves the same files as running it once. *)
Theorem metadata_write_is_idempotent
    (env : Environment) (op : metadata_op) (version : string) (w : World) :
  let once := op_run env op version w in
  let twice := op_run env op version (snd once) in
  fst twice = fst once ∧ files (snd twice) = files (snd once).
Proof.
  intros once twice. unfold twice, once. clear once twice.
  destruct (op_run_cases env op version w)
    as [H | [H | [(c & Hop & Hc & H) | (c & i & -> & Hc & Hi & H)]]].
  - by rewrite H; cbn [snd]; rewrite H.
  - by rewrite H; cbn [snd]; rewrite H.
  - destruct (semver.parse_version_info version) as [v|] eqn:Hv;
      [| by rewrite (op_run_invalid env op version w Hv) in H].
    rewrite H. cbn [snd fst].
    rewrite (op_run_replace_outcome env op version _ v _ Hop Hv)
      by (cbn [written files]; apply lookup_insert_eq).
    split; [done |]. rewrite readlines_join.
    + rewrite replace_if_twice. apply written_twice.
    + apply lines_ok_replace; [apply readlines_ok |].
      apply op_render_closed. by eapply parse_no_newline.
  - destruct (semver.parse_version_info version) as [v|] eqn:Hv;
      [| by rewrite (op_run_invalid env Primary version w Hv) in H].
    rewrite H. cbn [snd fst op_run].
    assert (Py.readlines (Py.join (<[i := VERSION_TEMPLATE version]> (Py.readlines c)))
            = <[i := VERSION_TEMPLATE version]> (Py.readlines c)) as Hread.
    { apply readlines_join, lines_ok_insert; [apply readlines_ok |].
      apply (op_render_closed Primary). by eapply parse_no_newline. }
    rewrite (set_pyversion_outcome env version
               (Py.join (<[i := VERSION_TEMPLATE version]> (Py.readlines c))) v i).
    + split; [done |]. rewrite Hread, list_insert_insert_eq. cbn [snd written files].
      apply map_eq. intros k.
      destruct (decide (k = fixture_path env)) as [-> | Hk1];
        [by rewrite !lookup_insert_eq |].
      rewrite !(lookup_insert_ne _ (fixture_path env)) by done.
      destruct (decide (k = op_path env Primary)) as [-> | Hk2];
        [by rewrite !lookup_insert_eq |].
      by rewrite !lookup_insert_ne by done.
    + done.
    + cbn [written files]. rewrite lookup_insert_ne by auto with paths.
      apply lookup_insert_eq.
    + rewrite Hread. apply index_true_insert; [done |].
      unfold op_marker, Py.startswith, VERSION_TEMPLATE. apply prefix_append.
Qed.

Section NotesFacts.

Lemma repeat_char_length (c : ascii) (n : nat) : String.length (Py.repeat_char c n) = n.
Proof. induction n as [|n IH]; [done |]. simpl. by rewrite IH. Qed.

Lemma repeat_char_chars (p : ascii → bool) (c : ascii) (n : nat) :
  p c = true → semver.all_chars p (Py.repeat_char c n) = true.
Proof.
  intros Hc. unfold semver.all_chars. induction n as [|n IH]; [done |].
  simpl. by rewrite Hc, IH.
Qed.

(** The template is four lines: two comments, the heading, the underline. *)
Lemma readlines_template (version underline : string) :
  semver.all_chars no_newline version = true →
  semver.all_chars no_newline underline = true →
  Py.readlines (RELEASE_NOTES_TEMPLATE version underline)
  = ["# Write the release notes here" +:+ nl;
     "# Delete the version title to cancel" +:+ nl;
     ("Version " +:+ version) +:+ nl;
     underline +:+ nl].
Proof.
  intros Hv Hu. unfold RELEASE_NOTES_TEMPLATE.
  rewrite <- (append_assoc "# Write the release notes here" nl).
  rewrite readlines_closed by done.
  rewrite <- (append_assoc "# Delete the version title to cancel" nl).
  rewrite readlines_closed by done.
  rewrite <- (append_assoc "Version " version), <- (append_assoc _ nl).
  rewrite readlines_closed
    by (apply line_ok_closed; by rewrite all_chars_append, Hv).
  rewrite readlines_open by (by apply line_ok_open, line_ok_closed).
  done.
Qed.

End NotesFacts.

(** X10: when the editor session saves the text it was given, that is not a
    cancellation: [get_release_notes] returns the heading, an underline of
    [=] signs as long as the heading, and a blank line. *)
Theorem unchanged_template_counts_as_notes
    (env : Environment) (version : string) (v : semver.VersionInfo) (w : World) :
  semver.parse_version_info version = Some v →
  (∀ initial, edited env (default "vim" (EDITOR env)) initial = Some initial) →
  fst (get_release_notes env version w)
  = Ret (Some [("Version " +:+ semver.str v) +:+ nl;
               Py.repeat_char "=" (String.length ("Version " +:+ semver.str v)) +:+ nl;
               nl]) ∧
  String.length (Py.repeat_char "=" (String.length ("Version " +:+ semver.str v)))
  = String.length ("Version " +:+ semver.str v).
Proof.
  intros Hv. rewrite (parse_str _ _ Hv). intros Hsaved.
  split; [| apply repeat_char_length].
  rewrite (get_release_notes_outcome env version _ v w Hv (Hsaved _)). cbn zeta.
  unfold notes_template. rewrite readlines_template;
    [| by eapply parse_no_newline | by apply repeat_char_chars].
  cbn [List.filter not_comment fst].
  change (not_comment ("# Write the release notes here" +:+ nl)) with false.
  change (not_comment ("# Delete the version title to cancel" +:+ nl)) with false.
  assert (not_comment (("Version " +:+ version) +:+ nl) = true) as -> by done.
  assert (∀ s, not_comment (Py.repeat_char "=" (String.length ("Version " +:+ s)) +:+ nl) = true)
    as Hunder by done.
  rewrite Hunder. cbn [List.filter].
  assert (Py.contains version
            (Py.join [("Version " +:+ version) +:+ nl;
                      Py.repeat_char "=" (String.length ("Version " +:+ version)) +:+ nl])
          = true) as ->.
  { rewrite join_cons, !append_assoc. apply contains_append_mid. }
  cbn [last].
  assert (∀ s, Py.isspace (Py.repeat_char "=" (String.length ("Version " +:+ s)) +:+ nl) = false)
    as -> by done.
  done.
Qed.

(** X10 for version 1.2.0: the underline is thirteen [=] signs. *)
Lemma unchanged_template_witness :
  fst (get_release_notes unchanged_env "1.2.0" sample_world)
  = Ret (Some [("Version " +:+ "1.2.0") +:+ nl;
               Py.repeat_char "=" (String.length ("Version " +:+ "1.2.0")) +:+ nl;
               nl]) ∧
  String.length (Py.repeat_char "=" (String.length ("Version " +:+ "1.2.0")))
  = String.length ("Version " +:+ "1.2.0").
Proof.
  apply (unchanged_template_counts_as_notes unchanged_env "1.2.0"
           {| semver.major := 1; semver.minor := 2; semver.patch := 0;
              semver.prerelease := None; semver.build := None |} sample_world);
    reflexivity.
Defined.

Section BuildFacts.
Variable env : Environment.

Lemma chdir_outcome (path : string) (w : World) : chdir path w = (Ret tt, moved w path).
Proof. reflexivity. Qed.

Lemma try_finally_chdir_outcome {A} (body : M A) (path : string) (w w1 : World) (r : outcome A) :
  body w = (r, w1) → try_finally body (chdir path) w = (r, moved w1 path).
Proof. intros H. unfold try_finally. by rewrite H. Qed.

End BuildFacts.

(** X11: when [npm install] fails, [build_js] does not run [npm publish];
    it prints the failure, moves back to [HERE] and exits with the status of
    [npm install]. *)
Theorem build_js_stops_at_failed_install (env : Environment) (w : World) :
  let result := shell env "npm install" (moved w (JS_DIR env)) in
  exited result ≠ 0%Z →
  build_js env w =
  (Raise (SystemExit (Some (exited result))),
   moved (log (moved w (JS_DIR env))
            [Invoke "npm install"; CPrint "Error running npm install" "red";
             Print (stdout result); Print ""; Print (stderr result)])
         (HERE env)).
Proof.
  intros result Hfail. unfold build_js.
  rewrite (bind_ret _ _ _ _ _ (chdir_outcome _ _)).
  apply try_finally_chdir_outcome.
  by rewrite (bind_raise _ _ _ _ _ (run_fails env _ _ Hfail)).
Qed.

(** X11 when [npm install] exits with 2. *)
Lemma build_js_failed_install_witness :
  build_js install_fails_env bare_world =
  (Raise (SystemExit (Some 2%Z)),
   moved (log (moved bare_world "/repo")
            [Invoke "npm install"; CPrint "Error running npm install" "red";
             Print "some output"; Print ""; Print "some error"])
         "/repo").
Proof.
  apply (build_js_stops_at_failed_install install_fails_env bare_world).
  discriminate.
Defined.

(** X12: when the upload fails after the two commands before it
    succeeded, [release_python_sdist] ends with invoke's [UnexpectedExit] that
    carries the exit code, the output of the upload is echoed, and the red
    error label of [run] is not printed. *)
Theorem upload_failure_is_raised_by_invoke (env : Environment) (w : World) :
  let w1 := log w [Invoke "rm -f dist/*"] in
  let w2 := log w [Invoke "rm -f dist/*"; Invoke "python setup.py sdist"] in
  let result := shell env "twine upload dist/*" w2 in
  exited (shell env "rm -f dist/*" w) = 0%Z →
  exited (shell env "python setup.py sdist" w1) = 0%Z →
  exited result ≠ 0%Z →
  release_python_sdist env w =
  (Raise (UnexpectedExit (exited result)),
   log w [Invoke "rm -f dist/*"; Invoke "python setup.py sdist";
          Invoke "twine upload dist/*"; Echo (stdout result) (stderr result)]).
Proof.
  intros w1 w2 result Hrm Hsdist Hfail. unfold release_python_sdist.
  rewrite (bind_ret _ _ _ _ _ (run_succeeds env _ _ Hrm)).
  fold w1. rewrite (bind_ret _ _ _ _ _ (run_succeeds env _ _ Hsdist)).
  unfold w1. rewrite log_log. cbn [app]. fold w2.
  unfold mbind, M_bind, invoke_run. fold result.
  apply Z.eqb_neq in Hfail. rewrite Hfail. cbn.
  unfold w2, log. cbn. by rewrite <- !app_assoc.
Qed.

(** X12 when the upload exits with 1. *)
Lemma upload_failure_witness :
  release_python_sdist upload_fails_env sample_world =
  (Raise (UnexpectedExit 1%Z),
   log sample_world
       [Invoke "rm -f dist/*"; Invoke "python setup.py sdist";
        Invoke "twine upload dist/*"; Echo "some output" "some error"]).
Proof.
  apply (upload_failure_is_raised_by_invoke upload_fails_env sample_world);
    [reflexivity | reflexivity | discriminate].
Defined.

Section IssueFacts.
Variable env : Environment.
Variable allowed : list string.

Lemma issues_only_ret {A} (a : A) : issues_only allowed (mret a : M A).
Proof. intros w. exists []. split; [by rewrite app_nil_r | by intros c []]. Qed.

Lemma issues_only_raise {A} (e : exn) : issues_only allowed (raise e : M A).
Proof. intros w. exists []. split; [by rewrite app_nil_r | by intros c []]. Qed.

Lemma issues_only_emit (e : event) :
  is_command e = false → issues_only allowed (emit e).
Proof.
  intros He w. exists [e]. split; [done |].
  intros c [E | []]. subst e. discriminate.
Qed.

Lemma issues_only_bind {A B} (m : M A) (f : A → M B) :
  issues_only allowed m → (∀ a, issues_only allowed (f a)) →
  issues_only allowed (m ≫= f).
Proof.
  intros Hm Hf w. destruct (Hm w) as (xs & Hxs & Hin). unfold mbind, M_bind.
  destruct (m w) as [[a|e] w1]; cbn [snd] in Hxs.
  - destruct (Hf a w1) as (ys & Hys & Hin'). exists (xs ++ ys). split.
    + by rewrite Hys, Hxs, app_assoc.
    + intros c [Hc | Hc]%List.in_app_or; auto.
  - by exists xs.
Qed.

Lemma issues_only_invoke_run (command : string) (hide warn : bool) :
  In command allowed → issues_only allowed (invoke_run env command hide warn).
Proof.
  intros Hc w. unfold invoke_run.
  exists (Invoke command ::
          (if hide then []
           else [Echo (stdout (shell env command w)) (stderr (shell env command w))])).
  split.
  - by destruct (negb warn && negb (exited (shell env command w) =? 0)%Z).
  - intros c [[= <-] | Hin]; [done |]. destruct hide; [done |].
    by destruct Hin as [[=] | []].
Qed.

Lemma issues_only_run (command : string) :
  In command allowed → issues_only allowed (run env command).
Proof.
  intros Hc w. exists (run_events command (shell env command w)). split.
  - by rewrite run_outcome.
  - unfold run_events. destruct (exited (shell env command w) =? 0)%Z;
      intros c Hin; repeat (destruct Hin as [[= <-] | Hin]; try done); done.
Qed.

Lemma issues_only_read_lines (path : string) : issues_only allowed (read_lines path).
Proof.
  intros w. exists []. unfold read_lines. split; [| by intros c []].
  destruct (files w !! path); by rewrite app_nil_r.
Qed.

Lemma issues_only_write_file (path content : string) :
  issues_only allowed (write_file path content).
Proof.
  intros w. exists [Write path content]. split; [done |].
  intros c [[=] | []].
Qed.

Lemma issues_only_chdir (path : string) : issues_only allowed (chdir path).
Proof.
  intros w. exists [Chdir path]. split; [done |]. intros c [[=] | []].
Qed.

Lemma issues_only_normalize (version : string) :
  issues_only allowed (normalize_version version).
Proof.
  unfold normalize_version. destruct (semver.parse_version_info version);
    [apply issues_only_ret | apply issues_only_raise].
Qed.

Lemma issues_only_try_finally {A} (body : M A) (handler : M unit) :
  issues_only allowed body → issues_only allowed handler →
  issues_only allowed (try_finally body handler).
Proof.
  intros Hb Hh w. destruct (Hb w) as (xs & Hxs & Hin). unfold try_finally.
  destruct (body w) as [r w1]; cbn [snd] in Hxs.
  destruct (Hh w1) as (ys & Hys & Hin'). exists (xs ++ ys). split.
  - destruct (handler w1) as [[[]|e] w2]; cbn [snd] in *; by rewrite Hys, Hxs, app_assoc.
  - intros c [Hc | Hc]%List.in_app_or; auto.
Qed.

Lemma issues_only_for_each {A} (xs : list A) (body : A → M unit) :
  (∀ x, In x xs → issues_only allowed (body x)) →
  issues_only allowed (for_each xs body).
Proof.
  induction xs as [|x xs IH]; intros H; [apply issues_only_ret |].
  cbn [for_each]. apply issues_only_bind; [apply H; by left |].
  intros _. apply IH. intros y Hy. apply H. by right.
Qed.

Lemma issues_only_op_run (op : metadata_op) (version : string) :
  issues_only allowed (op_run env op version).
Proof.
  destruct op; cbn [op_run];
    unfold set_pyversion, set_jsversion, set_documentation_version, write_lines;
    (apply issues_only_bind; [apply issues_only_normalize | intros v]);
    (apply issues_only_bind; [apply issues_only_read_lines | intros lines]);
    try apply issues_only_write_file.
  apply issues_only_bind.
  - destruct (Py.index_true _ lines); [apply issues_only_ret | apply issues_only_raise].
  - intros i. apply issues_only_bind; [| intros _]; apply issues_only_write_file.
Qed.

Lemma issues_only_check_prerequisites : issues_only allowed (check_prerequisites env).
Proof.
  unfold check_prerequisites. apply issues_only_for_each. intros x _.
  destruct (which env x); [apply issues_only_ret |].
  apply issues_only_bind; [by apply issues_only_emit | intros _].
  apply issues_only_raise.
Qed.

End IssueFacts.

Section PrereleaseFacts.
Variable env : Environment.

Lemma issues_only_build_publish (version : string) :
  issues_only build_publish_commands (build_publish env version).
Proof.
  unfold build_publish, info.
  apply issues_only_bind; [by apply issues_only_emit | intros _].
  apply issues_only_bind.
  { unfold clean. apply issues_only_for_each. intros path Hpath.
    apply issues_only_run. cbn in Hpath.
    destruct Hpath as [<- | [<- | [<- | []]]]; cbn; tauto. }
  intros _.
  apply issues_only_bind; [by apply issues_only_emit | intros _].
  apply issues_only_bind; [apply (issues_only_op_run env _ Primary) | intros _].
  apply issues_only_bind; [apply (issues_only_op_run env _ Secondary) | intros _].
  apply issues_only_bind; [by apply issues_only_emit | intros _].
  apply issues_only_bind.
  { unfold build_js. apply issues_only_bind; [apply issues_only_chdir | intros _].
    apply issues_only_try_finally; [| apply issues_only_chdir].
    apply issues_only_bind; [| intros _]; apply issues_only_run; cbn; tauto. }
  intros _.
  apply issues_only_bind; [by apply issues_only_emit | intros _].
  apply issues_only_bind; [by apply issues_only_emit | intros _].
  unfold release_python_sdist.
  apply issues_only_bind; [apply issues_only_run; cbn; tauto | intros _].
  apply issues_only_bind; [apply issues_only_run; cbn; tauto | intros _].
  apply issues_only_bind; [apply issues_only_invoke_run; cbn; tauto | intros _].
  apply issues_only_ret.
Qed.

End PrereleaseFacts.

(** X13: however it ends, [prerelease] issues only the commands of
    [build_publish]; none of them is a [git] command. *)
Theorem prerelease_issues_no_source_control_command
    (env : Environment) (version : string) (w : World) :
  ∃ events,
    trace (snd (prerelease env version w)) = trace w ++ events ∧
    ∀ command, In (Invoke command) events →
      In command build_publish_commands ∧ Py.startswith command "git" = false.
Proof.
  assert (issues_only build_publish_commands (prerelease env version)) as H.
  { unfold prerelease.
    apply issues_only_bind; [apply issues_only_check_prerequisites | intros _].
    apply issues_only_bind; [by apply issues_only_emit | intros _].
    apply issues_only_build_publish. }
  destruct (H w) as (events & Htrace & Hin). exists events. split; [done |].
  intros command Hc. specialize (Hin command Hc). split; [done |].
  cbn in Hin. repeat (destruct Hin as [<- | Hin]; [reflexivity |]). done.
Qed.

Section PathFacts.

Lemma append_last_char (a b : string) (c d : ascii) :
  a +:+ String c "" = b +:+ String d "" → c = d.
Proof.
  revert b. induction a as [|x a IH]; intros [|y b]; rewrite ?append_cons, ?append_nil_l.
  - by intros [= ->].
  - intros [= _ H]. by destruct b.
  - intros [= _ H]. by destruct a.
  - intros [= _ H]. by apply (IH b).
Qed.

Lemma last_chars_differ (a b s t : string) (c d : ascii) :
  c ≠ d → a +:+ (s +:+ String c "") ≠ b +:+ (t +:+ String d "").
Proof.
  intros Hne Heq. rewrite <- !append_assoc in Heq. by apply append_last_char in Heq.
Qed.

Variable env : Environment.

Lemma docs_not_primary : op_path env DocsPin ≠ op_path env Primary.
Proof.
  unfold op_path, DASH_BOOTSTRAP_DIR, slash. rewrite !append_assoc. by apply paths_differ.
Qed.

Lemma docs_not_secondary : op_path env DocsPin ≠ op_path env Secondary.
Proof. unfold op_path, slash. rewrite !append_assoc. by apply paths_differ. Qed.

Lemma docs_not_fixture : op_path env DocsPin ≠ fixture_path env.
Proof.
  unfold op_path, fixture_path, slash. rewrite !append_assoc. by apply paths_differ.
Qed.

Lemma changelog_not_op (directory : string) (op : metadata_op) :
  slash directory "changelog.tmp" ≠ op_path env op.
Proof.
  destruct op; unfold op_path, DASH_BOOTSTRAP_DIR, slash; rewrite ?append_assoc.
  - by apply (last_chars_differ directory (HERE env) "/changelog.tm"
                "/dash_bootstrap_components/__init__.p" "p" "y").
  - by apply (last_chars_differ directory (HERE env) "/changelog.tm"
                "/package.jso" "p" "n").
  - by apply (last_chars_differ directory (HERE env) "/changelog.tm"
                "/docs/requirements.tx" "p" "t").
Qed.

Lemma changelog_not_fixture (directory : string) :
  slash directory "changelog.tmp" ≠ fixture_path env.
Proof.
  unfold fixture_path, slash; rewrite ?append_assoc.
  by apply (last_chars_differ directory (HERE env) "/changelog.tm"
              "/tests/test_version.p" "p" "y").
Qed.

End PathFacts.

#[export] Hint Resolve docs_not_primary docs_not_secondary docs_not_fixture
  changelog_not_op changelog_not_fixture : paths.

Section EffectFacts.
Variable env : Environment.

Lemma commands_app (xs ys : list event) : commands (xs ++ ys) = commands xs ++ commands ys.
Proof. apply List.filter_app. Qed.

Lemma effect_bind {A B} (m : M A) (f : A → M B) (w : World) (a : A) (b : B)
    (fs fs' : gmap string string) (d d' : string) (c1 c2 : list string) :
  effect m w a fs d c1 →
  (∀ w', files w' = fs → cwd w' = d → effect (f a) w' b fs' d' c2) →
  effect (m ≫= f) w b fs' d' (c1 ++ c2).
Proof.
  intros (w1 & l1 & Hm & Hf & Hd & Ht & Hc) Hnext.
  destruct (Hnext w1 Hf Hd) as (w2 & l2 & Hm2 & Hf2 & Hd2 & Ht2 & Hc2).
  exists w2, (l1 ++ l2). rewrite (bind_ret _ _ _ _ _ Hm). repeat split; try done.
  - by rewrite Ht2, Ht, app_assoc.
  - by rewrite commands_app, Hc, Hc2, fmap_app.
Qed.

Lemma effect_logs {A} (m : M A) (w : World) (a : A) (events : list event)
    (fs : gmap string string) (d : string) (issued : list string) :
  m w = (Ret a, log w events) → commands events = Invoke <$> issued →
  files w = fs → cwd w = d → effect m w a fs d issued.
Proof.
  intros Hm Hc Hf Hd. by exists (log w events), events.
Qed.

Lemma effect_written (m : M unit) (w : World) (path content : string)
    (fs : gmap string string) (d : string) :
  m w = (Ret tt, written w path content) →
  files w = fs → cwd w = d → effect m w tt (<[path := content]> fs) d [].
Proof.
  intros Hm Hf Hd. exists (written w path content), [Write path content].
  repeat split; try done. cbn [written files]. by rewrite Hf.
Qed.

Lemma effect_info (text : string) (w : World) (fs : gmap string string) (d : string) :
  files w = fs → cwd w = d → effect (info text) w tt fs d [].
Proof. by apply (effect_logs _ _ _ [Print text]). Qed.

Lemma effect_run (command : string) (w : World) (fs : gmap string string) (d : string) :
  (∀ c w', exited (shell env c w') = 0%Z) →
  files w = fs → cwd w = d → effect (run env command) w tt fs d [command].
Proof.
  intros Hshell. apply (effect_logs _ _ _ [Invoke command]); [| done].
  apply run_succeeds, Hshell.
Qed.

Lemma effect_clean (w : World) (fs : gmap string string) (d : string) :
  (∀ c w', exited (shell env c w') = 0%Z) →
  files w = fs → cwd w = d →
  effect (clean env) w tt fs d
    ["rm -rf dash_bootstrap_components/_components"; "rm -rf dist/"; "rm -rf lib/"].
Proof.
  intros Hshell. eapply effect_logs; [by apply clean_succeeds | done].
Qed.

Lemma effect_build_js (w : World) (fs : gmap string string) (d : string) :
  (∀ c w', exited (shell env c w') = 0%Z) →
  files w = fs → cwd w = d →
  effect (build_js env) w tt fs (HERE env) ["npm install"; "npm publish"].
Proof.
  intros Hshell Hf Hd. unfold build_js.
  rewrite <- (app_nil_l ["npm install"; "npm publish"]).
  apply (effect_bind _ _ _ tt _ fs _ (JS_DIR env)).
  { by exists (moved w (JS_DIR env)), [Chdir (JS_DIR env)]. }
  intros w1 Hf1 Hd1.
  exists (moved (log w1 [Invoke "npm install"; Invoke "npm publish"]) (HERE env)),
         [Invoke "npm install"; Invoke "npm publish"; Chdir (HERE env)].
  split; [| repeat split; try done].
  - apply try_finally_chdir_outcome.
    rewrite (bind_ret _ _ _ _ _ (run_succeeds env _ _ (Hshell _ _))).
    rewrite (run_succeeds env _ _ (Hshell _ _)). by rewrite log_log.
  - cbn [moved log trace]. by rewrite <- app_assoc.
Qed.

Lemma effect_release_python_sdist (w : World) (fs : gmap string string) (d : string) :
  (∀ c w', exited (shell env c w') = 0%Z) →
  files w = fs → cwd w = d →
  effect (release_python_sdist env) w tt fs d
    ["rm -f dist/*"; "python setup.py sdist"; "twine upload dist/*"].
Proof.
  intros Hshell Hf Hd. unfold release_python_sdist.
  apply (effect_bind _ _ _ tt _ fs _ d _ ["rm -f dist/*"]); [by apply effect_run |].
  intros w1 Hf1 Hd1.
  apply (effect_bind _ _ _ tt _ fs _ d _ ["python setup.py sdist"]); [by apply effect_run |].
  intros w2 Hf2 Hd2.
  set (result := shell env "twine upload dist/*" w2).
  exists (log w2 [Invoke "twine upload dist/*"; Echo (stdout result) (stderr result)]),
         [Invoke "twine upload dist/*"; Echo (stdout result) (stderr result)].
  split; [| repeat split; try done].
  unfold mbind, M_bind, invoke_run. fold result. unfold result at 1.
  rewrite Hshell. done.
Qed.

Lemma effect_build_publish (version init_content package_content : string)
    (v : semver.VersionInfo) (i : nat) (w : World) (fs : gmap string string) (d : string) :
  (∀ c w', exited (shell env c w') = 0%Z) →
  semver.parse_version_info version = Some v →
  fs !! op_path env Primary = Some init_content →
  Py.index_true (op_marker Primary) (Py.readlines init_content) = Some i →
  fs !! op_path env Secondary = Some package_content →
  files w = fs → cwd w = d →
  effect (build_publish env version) w tt
    (<[op_path env Secondary :=
         Py.join (replace_if (op_marker Secondary) (js_line version)
                    <$> Py.readlines package_content)]>
     (<[fixture_path env := TEST_VERSION_TEMPLATE version]>
     (<[op_path env Primary :=
          Py.join (<[i := VERSION_TEMPLATE version]> (Py.readlines init_content))]> fs)))
    (HERE env) build_publish_commands.
Proof.
  intros Hshell Hv Hinit Hi Hpackage Hf Hd. unfold build_publish.
  change build_publish_commands with
    ([] ++ ["rm -rf dash_bootstrap_components/_components"; "rm -rf dist/"; "rm -rf lib/"]
        ++ [] ++ [] ++ [] ++ [] ++ ["npm install"; "npm publish"] ++ [] ++ []
        ++ ["rm -f dist/*"; "python setup.py sdist"; "twine upload dist/*"]).
  eapply effect_bind; [eapply effect_info; eassumption | intros w1 Hf1 Hd1].
  eapply effect_bind; [eapply effect_clean; eassumption | intros w2 Hf2 Hd2].
  eapply effect_bind; [eapply effect_info; eassumption | intros w3 Hf3 Hd3].
  eapply effect_bind.
  { exists (written (written w3 (op_path env Primary)
                       (Py.join (<[i := VERSION_TEMPLATE version]> (Py.readlines init_content))))
                    (fixture_path env) (TEST_VERSION_TEMPLATE version)),
           [Write (op_path env Primary)
              (Py.join (<[i := VERSION_TEMPLATE version]> (Py.readlines init_content)));
            Write (fixture_path env) (TEST_VERSION_TEMPLATE version)].
    split; [apply (set_pyversion_outcome env version init_content v i); by rewrite ?Hf3 |].
    split; [cbn [written files]; by rewrite Hf3 |]. split; [exact Hd3 |].
    split; [| done]. cbn [written trace]. by rewrite <- app_assoc. }
  intros w4 Hf4 Hd4.
  eapply effect_bind.
  { apply effect_written; [| exact Hf4 | exact Hd4].
    apply (set_jsversion_outcome env version package_content v); [done |].
    rewrite Hf4. by rewrite !lookup_insert_ne by auto with paths. }
  intros w5 Hf5 Hd5.
  eapply effect_bind; [eapply effect_info; eassumption | intros w6 Hf6 Hd6].
  eapply effect_bind; [eapply effect_build_js; eassumption | intros w7 Hf7 Hd7].
  eapply effect_bind; [eapply effect_info; eassumption | intros w8 Hf8 Hd8].
  eapply effect_bind; [eapply effect_info; eassumption | intros w9 Hf9 Hd9].
  eapply effect_release_python_sdist; eassumption.
Qed.

End EffectFacts.

Section ReleaseFacts.
Variable env : Environment.

Lemma get_release_notes_accepts (version saved : string) (v : semver.VersionInfo) (w : World) :
  semver.parse_version_info version = Some v →
  edited env (default "vim" (EDITOR env)) (notes_template version) = Some saved →
  Py.contains version (Py.join (List.filter not_comment (Py.readlines saved))) = true →
  ∃ final,
    last (List.filter not_comment (Py.readlines saved)) = Some final ∧
    get_release_notes env version w =
    (Ret (Some (closed_notes (List.filter not_comment (Py.readlines saved)) final)),
     log w [Edit (default "vim" (EDITOR env)) (notes_template version)]).
Proof.
  intros Hv Hsaved Hpresent.
  rewrite (get_release_notes_outcome env version saved v w Hv Hsaved).
  cbn zeta. rewrite Hpresent.
  destruct (last (List.filter not_comment (Py.readlines saved))) as [final|] eqn:Hlast.
  - exists final. split; [done |]. unfold closed_notes. by destruct (Py.isspace final).
  - exfalso. apply last_None in Hlast.
    by apply (join_nil_inv _ version (parse_nonempty _ _ Hv)) in Hpresent.
Qed.

End ReleaseFacts.

Section ReleaseTrace.
Variable env : Environment.

Lemma effect_trace {A} (m : M A) (w : World) (a : A)
    (fs : gmap string string) (d : string) (issued : list string) :
  effect m w a fs d issued →
  ∃ w' later, m w = (Ret a, w') ∧ trace w' = trace w ++ later ∧
              commands later = Invoke <$> issued ∧ cwd w' = d.
Proof. intros (w' & later & Hm & _ & Hd & Ht & Hc). by exists w', later. Qed.

Lemma relative_outcome (name : string) (w : World) :
  relative name w = (Ret (slash (cwd w) name), w).
Proof. reflexivity. Qed.

Lemma write_lines_outcome (path : string) (lines : list string) (w : World) :
  write_lines path lines w = (Ret tt, written w path (Py.join lines)).
Proof. reflexivity. Qed.

End ReleaseTrace.

(** X14: with the tools installed, every command succeeding, a valid
    version, the three metadata files present and notes that contain the
    version, [release] returns normally.  Before any command it prints its
    banner, rewrites the documentation pin, opens the editor and writes the
    notes to [changelog.tmp] under the directory it was started from; the
    commands it then issues are those of [build_publish] followed by
    checkout, add, commit, tag and push, in this order; it ends with the
    working directory set to [HERE]. *)
Theorem release_succeeds_end_to_end
    (env : Environment)
    (version requirements init_content package_content saved : string)
    (v : semver.VersionInfo) (i : nat) (w : World) :
  (∀ executable, executable ∈ ["twine"; "npm"; "dash-generate-components"] →
     is_Some (which env executable)) →
  (∀ command w', exited (shell env command w') = 0%Z) →
  semver.parse_version_info version = Some v →
  files w !! op_path env DocsPin = Some requirements →
  files w !! op_path env Primary = Some init_content →
  Py.index_true (op_marker Primary) (Py.readlines init_content) = Some i →
  files w !! op_path env Secondary = Some package_content →
  edited env (default "vim" (EDITOR env)) (notes_template (semver.str v)) = Some saved →
  Py.contains (semver.str v)
    (Py.join (List.filter not_comment (Py.readlines saved))) = true →
  ∃ w' notes later,
    release env version w = (Ret tt, w') ∧
    fst (get_release_notes env version w) = Ret (Some notes) ∧
    trace w' =
      trace w ++
      [Print ("Releasing version " +:+ version +:+ " as full release");
       Write (op_path env DocsPin)
         (Py.join (replace_if (op_marker DocsPin) (docs_line (semver.str v))
                     <$> Py.readlines requirements));
       Edit (default "vim" (EDITOR env)) (notes_template (semver.str v));
       Print "Writing release notes to changelog.tmp";
       Write (slash (cwd w) "changelog.tmp") (Py.join notes)] ++ later ∧
    commands later =
      (Invoke <$> build_publish_commands ++ release_git_commands version) ∧
    cwd w' = HERE env.
Proof.
  intros Hwhich Hshell Hv. rewrite (parse_str _ _ Hv).
  intros Hreq Hinit Hi Hpackage Hsaved Hpresent.
  destruct (get_release_notes_accepts env version saved v w Hv Hsaved Hpresent)
    as (final & Hlast & Hnotes0).
  set (notes := closed_notes (List.filter not_comment (Py.readlines saved)) final) in *.
  set (pin := Py.join (replace_if (op_marker DocsPin) (docs_line version)
                         <$> Py.readlines requirements)).
  set (w1 := written (log w [Print ("Releasing version " +:+ version +:+ " as full release")])
               (op_path env DocsPin) pin).
  set (w2 := log w1 [Edit (default "vim" (EDITOR env)) (notes_template version);
                     Print "Writing release notes to changelog.tmp"]).
  set (w3 := written w2 (slash (cwd w) "changelog.tmp") (Py.join notes)).
  assert (∃ w' later,
            release env version w = (Ret tt, w') ∧ trace w' = trace w3 ++ later ∧
            commands later
              = (Invoke <$> build_publish_commands ++ release_git_commands version) ∧
            cwd w' = HERE env) as (w' & later & Hrun & Htrace & Hcommands & Hcwd).
  { unfold release.
    rewrite (bind_ret _ _ _ _ _ (check_prerequisites_found env w Hwhich)).
    rewrite (bind_ret _ _ _ _ _ (info_outcome _ _)).
    erewrite (bind_ret (set_documentation_version env version));
      [| by apply (set_documentation_version_outcome env version requirements v)].
    fold pin. fold w1.
    destruct (get_release_notes_accepts env version saved v w1 Hv Hsaved Hpresent)
      as (final' & Hlast' & Hnotes).
    rewrite Hlast in Hlast'. injection Hlast' as <-. fold notes in Hnotes.
    rewrite (bind_ret _ _ _ _ _ Hnotes).
    rewrite (bind_ret (mret notes) _ _ _ notes eq_refl).
    rewrite (bind_ret _ _ _ _ _ (info_outcome _ _)), log_log. cbn [app]. fold w2.
    rewrite (bind_ret _ _ _ _ _ (relative_outcome _ _)).
    rewrite (bind_ret _ _ _ _ _ (write_lines_outcome _ _ _)).
    change (cwd w2) with (cwd w). fold w3.
    eapply effect_trace.
    change (build_publish_commands ++ release_git_commands version) with
      (build_publish_commands ++ []
          ++ ["git checkout -b release-" +:+ version]
          ++ ["git add package.json package-lock.json docs/requirements.txt "
              +:+ "dash_bootstrap_components/_version.py"]
          ++ ["git commit -m " +:+ dquote +:+ "Bump version to " +:+ version +:+ dquote]
          ++ []
          ++ ["git tag -a " +:+ dquote +:+ version +:+ dquote +:+ " -F changelog.tmp"]
          ++ ["git push origin release-" +:+ version +:+ " --tags"]).
    eapply effect_bind.
    { apply (effect_build_publish env version init_content package_content v i
               w3 (files w3) (cwd w)); try done; cbn [w3 w2 w1 written log files].
      - by rewrite !lookup_insert_ne by auto with paths.
      - by rewrite !lookup_insert_ne by auto with paths. }
    intros w9 Hf9 Hd9.
    eapply effect_bind; [eapply effect_info; eassumption | intros w10 Hf10 Hd10].
    eapply effect_bind; [eapply effect_run; eassumption | intros w11 Hf11 Hd11].
    eapply effect_bind; [eapply effect_run; eassumption | intros w12 Hf12 Hd12].
    eapply effect_bind; [eapply effect_run; eassumption | intros w13 Hf13 Hd13].
    eapply effect_bind; [eapply effect_info; eassumption | intros w14 Hf14 Hd14].
    eapply effect_bind; [eapply effect_run; eassumption | intros w15 Hf15 Hd15].
    eapply effect_run; eassumption. }
  exists w', notes, later. split; [done |]. split; [by rewrite Hnotes0 |].
  split; [| by split].
  rewrite Htrace. cbn [w3 w2 w1 written log trace]. by rewrite <- !app_assoc.
Qed.

(** X14 on the sample installation. *)
Lemma release_end_to_end_witness :
  ∃ w' notes later,
    release sample_env "1.2.0" sample_world = (Ret tt, w') ∧
    fst (get_release_notes sample_env "1.2.0" sample_world) = Ret (Some notes) ∧
    trace w' =
      trace sample_world ++
      [Print ("Releasing version " +:+ "1.2.0" +:+ " as full release");
       Write (op_path sample_env DocsPin)
         (Py.join (replace_if (op_marker DocsPin) (docs_line "1.2.0")
                     <$> Py.readlines sample_requirements));
       Edit "vim" (notes_template "1.2.0");
       Print "Writing release notes to changelog.tmp";
       Write (slash (cwd sample_world) "changelog.tmp") (Py.join notes)] ++ later ∧
    commands later =
      (Invoke <$> build_publish_commands ++ release_git_commands "1.2.0") ∧
    cwd w' = HERE sample_env.
Proof.
  apply (release_succeeds_end_to_end sample_env "1.2.0" sample_requirements
           sample_init sample_package_json
           (notes_template "1.2.0" +:+ "- New components" +:+ nl)
           {| semver.major := 1; semver.minor := 2; semver.patch := 0;
              semver.prerelease := None; semver.build := None |} 1 sample_world);
    try reflexivity.
  intros executable _. by eexists.
Defined.

Section TaskFacts.
Variable env : Environment.

Lemma writes_nothing_emit (e : event) : is_write e = false → writes_nothing (emit e).
Proof. intros He w. exists [e]. split; [done |]. by constructor. Qed.

Lemma writes_nothing_run (command : string) : writes_nothing (run env command).
Proof.
  intros w. exists (run_events command (shell env command w)). split.
  - by rewrite run_outcome.
  - unfold run_events. destruct (exited (shell env command w) =? 0)%Z;
      repeat constructor.
Qed.

Lemma writes_nothing_bind {A B} (m : M A) (f : A → M B) :
  writes_nothing m → (∀ a, writes_nothing (f a)) → writes_nothing (m ≫= f).
Proof.
  intros Hm Hf w. destruct (Hm w) as (xs & Hxs & Hnone). unfold mbind, M_bind.
  destruct (m w) as [[a|e] w1]; cbn [snd] in Hxs.
  - destruct (Hf a w1) as (ys & Hys & Hnone'). exists (xs ++ ys). split.
    + by rewrite Hys, Hxs, app_assoc.
    + by apply Forall_app.
  - by exists xs.
Qed.

Lemma writes_nothing_copy_examples : writes_nothing (copy_examples env).
Proof.
  unfold copy_examples, info.
  apply writes_nothing_bind; [by apply writes_nothing_emit | intros _].
  repeat (apply writes_nothing_bind; [apply writes_nothing_run | intros _]).
  apply writes_nothing_run.
Qed.

Lemma writes_nothing_documentation : writes_nothing (documentation env).
Proof.
  unfold documentation, info.
  apply writes_nothing_bind; [by apply writes_nothing_emit | intros _].
  repeat (apply writes_nothing_bind; [apply writes_nothing_run | intros _]).
  apply writes_nothing_run.
Qed.

End TaskFacts.

(** X15: when a command of the pre-tasks [copy_examples] and
    [documentation] fails, the task [postrelease] ends with that failure
    before the body of [postrelease] is run: the script has opened no file
    for writing, so it has not written the next version anywhere. *)
Theorem failed_documentation_prevents_version_bump
    (env : Environment) (version : string) (w : World) (e : exn) :
  fst ((copy_examples env;; documentation env) w) = Raise e →
  fst (postrelease_task env version w) = Raise e ∧
  ∃ events,
    trace (snd (postrelease_task env version w)) = trace w ++ events ∧
    Forall (λ event, is_write event = false) events.
Proof.
  unfold postrelease_task, mbind, M_bind. intros H.
  destruct (writes_nothing_copy_examples env w) as (xs & Hxs & Hnone).
  destruct (copy_examples env w) as [[[]|e1] w1]; cbn [fst snd] in *;
    [| split; [done | by exists xs] ].
  destruct (writes_nothing_documentation env w1) as (ys & Hys & Hnone').
  destruct (documentation env w1) as [[[]|e2] w2]; cbn [fst snd] in *; [done |].
  split; [done |]. exists (xs ++ ys). split.
  - by rewrite Hys, Hxs, app_assoc.
  - by apply Forall_app.
Qed.

(** X15 when the push to the documentation host fails. *)
Lemma failed_documentation_witness :
  fst (postrelease_task heroku_fails_env "1.2.0" sample_world)
  = Raise (SystemExit (Some 128%Z)) ∧
  ∃ events,
    trace (snd (postrelease_task heroku_fails_env "1.2.0" sample_world))
    = trace sample_world ++ events ∧
    Forall (λ event, is_write event = false) events.
Proof.
  apply (failed_documentation_prevents_version_bump heroku_fails_env "1.2.0"
           sample_world).
  reflexivity.
Defined.

(** X16: a cancelled [release] has already rewritten the documentation
    pin: when it exits for lack of notes, the files are those it found with
    [docs/requirements.txt] updated to the version. *)
Theorem cancelled_release_has_rewritten_pin
    (env : Environment) (version requirements saved : string)
    (v : semver.VersionInfo) (w : World) :
  (∀ executable, executable ∈ ["twine"; "npm"; "dash-generate-components"] →
     is_Some (which env executable)) →
  semver.parse_version_info version = Some v →
  files w !! op_path env DocsPin = Some requirements →
  edited env (default "vim" (EDITOR env)) (notes_template (semver.str v)) = Some saved →
  Py.contains (semver.str v)
    (Py.join (List.filter not_comment (Py.readlines saved))) = false →
  files (snd (release env version w)) =
  <[op_path env DocsPin :=
      Py.join (replace_if (op_marker DocsPin) (docs_line (semver.str v))
                 <$> Py.readlines requirements)]> (files w).
Proof.
  intros Hwhich Hv. rewrite (parse_str _ _ Hv).
  intros Hreq Hsaved Habsent. unfold release.
  rewrite (bind_ret _ _ _ _ _ (check_prerequisites_found env w Hwhich)).
  rewrite (bind_ret _ _ _ _ _ (info_outcome _ _)).
  erewrite (bind_ret (set_documentation_version env version));
    [| by apply (set_documentation_version_outcome env version requirements v)].
  erewrite (bind_ret (get_release_notes env version));
    [| rewrite (get_release_notes_outcome env version saved v _ Hv Hsaved);
       cbn zeta; rewrite Habsent; reflexivity].
  reflexivity.
Qed.

(** X16 when the user deletes the heading. *)
Lemma cancelled_release_witness :
  files (snd (release cancel_env "1.2.0" sample_world)) =
  <[op_path cancel_env DocsPin :=
      Py.join (replace_if (op_marker DocsPin) (docs_line "1.2.0")
                 <$> Py.readlines sample_requirements)]> (files sample_world).
Proof.
  apply (cancelled_release_has_rewritten_pin cancel_env "1.2.0" sample_requirements
           ("# Write the release notes here" +:+ nl)
           {| semver.major := 1; semver.minor := 2; semver.patch := 0;
              semver.prerelease := None; semver.build := None |} sample_world);
    try reflexivity.
  intros executable _. by eexists.
Defined.

(** ** The metadata files as bytes on disk *)

Section DiskFacts.

Lemma with_linesep_cons (p : platform) (c : ascii) (text : string) :
  with_linesep p (String c text) =
  if Ascii.eqb c "010" then linesep p +:+ with_linesep p text
  else String c (with_linesep p text).
Proof. reflexivity. Qed.



(** On a POSIX platform text is stored as it is. *)
Lemma with_linesep_posix (text : string) : with_linesep Posix text = text.
Proof.
  induction text as [|c text IH]; [done |]. rewrite with_linesep_cons, IH.
  destruct (Ascii.eqb c "010") eqn:E; [| done].
  apply Ascii.eqb_eq in E. by subst c.
Qed.

Lemma universal_newlines_cons (c : ascii) (rest : string) :
  Ascii.eqb c "013" = false →
  universal_newlines (String c rest) = String c (universal_newlines rest).
Proof. intros H. simpl. by rewrite H. Qed.

Lemma universal_newlines_crlf (rest : string) :
  universal_newlines (String "013" (String "010" rest))
  = String "010" (universal_newlines rest).
Proof. reflexivity. Qed.

(** Text without carriage return is read back as it was written. *)
Lemma universal_with_linesep (p : platform) (text : string) :
  semver.all_chars no_cr text = true →
  universal_newlines (with_linesep p text) = text.
Proof.
  unfold semver.all_chars. induction text as [|c text IH]; [done |].
  intros H. simpl in H. apply andb_prop in H as [Hc H].
  unfold no_cr in Hc. apply negb_true_iff in Hc.
  rewrite with_linesep_cons. destruct (Ascii.eqb c "010") eqn:E.
  - apply Ascii.eqb_eq in E. subst c. destruct p; cbn [linesep].
    + rewrite append_cons, append_nil_l, universal_newlines_cons by done.
      by rewrite IH.
    + rewrite !append_cons, append_nil_l, universal_newlines_crlf. by rewrite IH.
  - rewrite universal_newlines_cons by done. by rewrite IH.
Qed.

Lemma universal_newlines_cr (c : ascii) (rest : string) :
  Ascii.eqb c "010" = false →
  universal_newlines (String "013" (String c rest))
  = String "010" (universal_newlines (String c rest)).
Proof. intros H. cbn [universal_newlines]. cbn [Ascii.eqb Bool.eqb]. by rewrite H. Qed.

(** What text mode reads holds no carriage return. *)
Lemma universal_newlines_no_cr_bounded (n : nat) (bytes : string) :
  String.length bytes ≤ n →
  semver.all_chars no_cr (universal_newlines bytes) = true.
Proof.
  unfold semver.all_chars. revert bytes.
  induction n as [|n IH]; intros bytes Hlen.
  - destruct bytes; [done | simpl in Hlen; lia].
  - destruct bytes as [|c rest]; [done |]. simpl in Hlen.
    destruct (Ascii.eqb c "013") eqn:E.
    + apply Ascii.eqb_eq in E. subst c.
      destruct rest as [|c' rest']; [done |]. simpl in Hlen.
      destruct (Ascii.eqb c' "010") eqn:E'.
      * apply Ascii.eqb_eq in E'. subst c'. rewrite universal_newlines_crlf.
        cbn [String.list_ascii_of_string forallb]. apply IH. lia.
      * rewrite universal_newlines_cr by done.
        cbn [String.list_ascii_of_string forallb]. apply IH. simpl. lia.
    + rewrite universal_newlines_cons by done.
      cbn [String.list_ascii_of_string forallb]. unfold no_cr at 1.
      rewrite E. apply IH. lia.
Qed.

Lemma universal_newlines_no_cr (bytes : string) :
  semver.all_chars no_cr (universal_newlines bytes) = true.
Proof. by apply (universal_newlines_no_cr_bounded (String.length bytes)). Qed.

(** Reading what was stored for the text of a file gives that text. *)
Lemma universal_with_linesep_universal (p : platform) (bytes : string) :
  universal_newlines (with_linesep p (universal_newlines bytes))
  = universal_newlines bytes.
Proof. apply universal_with_linesep, universal_newlines_no_cr. Qed.





Lemma stored_written (p : platform) (path content : string) (disk : gmap string string) :
  stored p [Write path content] disk = <[path := with_linesep p content]> disk.
Proof. reflexivity. Qed.

End DiskFacts.

Section OnDisk.
Variable p : platform.
Variable env : Environment.

Lemma text_lookup (disk : gmap string string) (path bytes directory : string) :
  disk !! path = Some bytes →
  files {| files := universal_newlines <$> disk; cwd := directory; trace := [] |} !! path
  = Some (universal_newlines bytes).
Proof. intros H. cbn [files]. by rewrite lookup_fmap, H. Qed.


End OnDisk.

Example universal_newlines_examples :
  universal_newlines ("a" +:+ cr +:+ nl +:+ "b" +:+ cr +:+ "c" +:+ nl)
  = "a" +:+ nl +:+ "b" +:+ nl +:+ "c" +:+ nl /\
  with_linesep Windows ("a" +:+ nl +:+ "b") = "a" +:+ cr +:+ nl +:+ "b" /\
  with_linesep Posix ("a" +:+ nl +:+ "b") = "a" +:+ nl +:+ "b".
Proof. repeat split. Qed.

Example dos_file_is_native_on_windows :
  with_linesep Windows (universal_newlines dos_package_json) = dos_package_json /\
  with_linesep Posix (universal_newlines dos_package_json) <> dos_package_json.
Proof. split; [reflexivity | vm_compute; discriminate]. Qed.

Section TextFacts.


End TextFacts.




(** C9 as stated fails: on a POSIX platform, [set_jsversion] rewrites a
    [package.json] that has DOS line endings and no marked line: the file
    loses its carriage returns. *)
Lemma no_marker_bytes_counterexample :
  (∀ line, line ∈ Py.readlines dos_plain_json → op_marker Secondary line = false) ∧
  ∃ disk',
    op_on_disk Posix sample_env Secondary "1.2.0" "/repo"
      {[ op_path sample_env Secondary := dos_plain_json ]} = (Ret tt, disk') ∧
    disk' !! op_path sample_env Secondary ≠ Some dos_plain_json.
Proof.
  split.
  - intros line Hline. apply list_elem_of_In in Hline.
    destruct Hline as [<- | []]. reflexivity.
  - eexists. split; [reflexivity |]. vm_compute. discriminate.
Qed.

(** C9, amended: when no line of the text of the file carries the marker,
    [set_pyversion] raises before it opens any file for writing, so the disk
    is as it was; [set_jsversion] and [set_documentation_version] write back
    the text they read, so the text of the file is unchanged, and the file is
    unchanged byte for byte when its line endings already are the line
    separator of the platform; a file with other line endings is rewritten
    with that separator.  With a malformed version no operation writes. *)
Theorem no_marker_leaves_text_unchanged
    (p : platform) (env : Environment) (op : metadata_op)
    (version bytes directory : string) (disk : gmap string string) :
  disk !! op_path env op = Some bytes →
  (∀ line, line ∈ Py.readlines (universal_newlines bytes) → op_marker op line = false) →
  (op = Primary →
     op_on_disk p env op version directory disk = (Raise ValueError, disk)) ∧
  (semver.parse_version_info version = None →
     op_on_disk p env op version directory disk = (Raise ValueError, disk)) ∧
  (op ≠ Primary → ∀ v, semver.parse_version_info version = Some v →
     op_on_disk p env op version directory disk
     = (Ret tt, <[op_path env op := with_linesep p (universal_newlines bytes)]> disk) ∧
     universal_newlines (with_linesep p (universal_newlines bytes))
     = universal_newlines bytes ∧
     (with_linesep p (universal_newlines bytes) = bytes →
      <[op_path env op := with_linesep p (universal_newlines bytes)]> disk = disk)).
Proof.
  intros Hdisk Hnone.
  pose proof (text_lookup disk _ _ directory Hdisk) as Hf.
  split; [| split].
  - intros ->. unfold op_on_disk. cbn [op_run].
    rewrite (set_pyversion_no_marker env version _ _ Hf) by (by apply index_true_None).
    done.
  - intros Hv. unfold op_on_disk. by rewrite (op_run_invalid env op version _ Hv).
  - intros Hop v Hv. split; [| split].
    + unfold op_on_disk.
      rewrite (op_run_replace_outcome env op version _ v _ Hop Hv Hf).
      cbn [written trace app]. by rewrite stored_written, replace_none, join_readlines.
    + apply universal_with_linesep_universal.
    + intros ->. by apply insert_id.
Qed.

(** C9 amended, on POSIX files with newline endings and no version line. *)
Lemma no_marker_on_disk_witness :
  ((Secondary = Primary →
      op_on_disk Posix sample_env Secondary "1.2.0" "/home/user" (files bare_world)
      = (Raise ValueError, files bare_world)) ∧
   (semver.parse_version_info "1.2.0" = None →
      op_on_disk Posix sample_env Secondary "1.2.0" "/home/user" (files bare_world)
      = (Raise ValueError, files bare_world)) ∧
   (Secondary ≠ Primary → ∀ v, semver.parse_version_info "1.2.0" = Some v →
      op_on_disk Posix sample_env Secondary "1.2.0" "/home/user" (files bare_world)
      = (Ret tt, <[op_path sample_env Secondary :=
                     with_linesep Posix (universal_newlines ("{}" +:+ nl))]>
                 (files bare_world)) ∧
      universal_newlines (with_linesep Posix (universal_newlines ("{}" +:+ nl)))
      = universal_newlines ("{}" +:+ nl) ∧
      (with_linesep Posix (universal_newlines ("{}" +:+ nl)) = "{}" +:+ nl →
       <[op_path sample_env Secondary :=
           with_linesep Posix (universal_newlines ("{}" +:+ nl))]> (files bare_world)
       = files bare_world))) ∧
  op_on_disk Posix sample_env Primary "1.2.0" "/home/user" (files bare_world)
  = (Raise ValueError, files bare_world).
Proof.
  split.
  - apply (no_marker_leaves_text_unchanged Posix sample_env Secondary "1.2.0"
             ("{}" +:+ nl) "/home/user" (files bare_world)).
    + reflexivity.
    + intros line Hline. apply list_elem_of_In in Hline.
      destruct Hline as [<- | []]. reflexivity.
  - refine (proj1 (no_marker_leaves_text_unchanged Posix sample_env Primary "1.2.0"
                     ("import os" +:+ nl) "/home/user" (files bare_world) _ _)
                  eq_refl).
    + reflexivity.
    + intros line Hline. apply list_elem_of_In in Hline.
      destruct Hline as [<- | []]. reflexivity.
Defined.
